(** * Shallow embedding of scripts/ingest_cricket_data.py

    The ingestion script turns Cricsheet YAML match files into rows of the
    [matches], [players], [innings] and [ball_by_ball] tables.  This file
    embeds the extraction functions, the existence check of [insert_match],
    [process_yaml_file] and the per-file loop of [main].

    Modelling choices:
    - A document produced by [yaml.safe_load] is a [pyval].  Mapping keys are
      strings: a key that YAML reads as a number (the delivery labels
      [0.1], [16.3], ...) is represented by its [str()] rendering, which is
      what [parse_over_ball] receives.  Dicts are association lists in
      insertion order (Python dicts keep it); lookups take the first binding.
      Floating-point scalars are not represented.
    - A Python exception is [None] in the [option] monad.
    - The float [total_overs] is represented by the decimal string handed
      to [float()]. *)

From Stdlib Require Import String Ascii List ZArith Bool Lia Sorting.Sorted.
Import ListNotations.
Open Scope string_scope.
Open Scope Z_scope.

(** ** Python values *)

Set Warnings "-register-all".

Inductive pyval : Type :=
| PNone
| PBool (b : bool)
| PInt (z : Z)
| PStr (s : string)
| PDate (year month day : Z)       (* datetime.date built by safe_load *)
| PList (l : list pyval)
| PDict (d : list (string * pyval)).

(** Truth value of [if v:] / [v or w]. *)
Definition truthy (v : pyval) : bool :=
  match v with
  | PNone => false
  | PBool b => b
  | PInt z => negb (Z.eqb z 0)
  | PStr s => negb (String.eqb s "")
  | PDate _ _ _ => true
  | PList l => match l with [] => false | _ => true end
  | PDict d => match d with [] => false | _ => true end
  end.

(** [a or b] (both operands already evaluated). *)
Definition py_or (a b : pyval) : pyval := if truthy a then a else b.

(** [v == n] for an int literal [n]: [bool] is a subclass of [int]. *)
Definition py_eq_int (v : pyval) (n : Z) : bool :=
  match v with
  | PInt z => Z.eqb z n
  | PBool b => Z.eqb (Z.b2z b) n
  | _ => false
  end.

(** [a == b]; dicts are compared in their listing order. *)
Fixpoint py_eqb (a b : pyval) : bool :=
  match a, b with
  | PNone, PNone => true
  | PBool x, PBool y => Bool.eqb x y
  | PBool x, PInt y => Z.eqb (Z.b2z x) y
  | PInt x, PBool y => Z.eqb x (Z.b2z y)
  | PInt x, PInt y => Z.eqb x y
  | PStr x, PStr y => String.eqb x y
  | PDate y1 m1 d1, PDate y2 m2 d2 => Z.eqb y1 y2 && Z.eqb m1 m2 && Z.eqb d1 d2
  | PList xs, PList ys =>
      (fix go (xs ys : list pyval) : bool :=
         match xs, ys with
         | [], [] => true
         | x :: xs', y :: ys' => py_eqb x y && go xs' ys'
         | _, _ => false
         end) xs ys
  | PDict xs, PDict ys =>
      (fix go (xs ys : list (string * pyval)) : bool :=
         match xs, ys with
         | [], [] => true
         | (k1, x) :: xs', (k2, y) :: ys' =>
             String.eqb k1 k2 && py_eqb x y && go xs' ys'
         | _, _ => false
         end) xs ys
  | _, _ => false
  end.

Fixpoint assoc (k : string) (d : list (string * pyval)) : option pyval :=
  match d with
  | [] => None
  | (k', v) :: d' => if String.eqb k k' then Some v else assoc k d'
  end.

(** [v.get(k, default)]: an [AttributeError] unless [v] is a dict. *)
Definition dict_get (v : pyval) (k : string) (default : pyval) : option pyval :=
  match v with
  | PDict d => Some (match assoc k d with Some x => x | None => default end)
  | _ => None
  end.

(** [k in v] for a dict [v]. *)
Definition dict_has (v : pyval) (k : string) : bool :=
  match v with
  | PDict d => match assoc k d with Some _ => true | None => false end
  | _ => false
  end.

(** [v[n]] for a list or a string; a dict has no integer keys here
    ([KeyError]), any other value raises [TypeError]. *)
Definition py_index (v : pyval) (n : nat) : option pyval :=
  match v with
  | PList l => nth_error l n
  | PStr s => option_map (fun c => PStr (String c EmptyString)) (String.get n s)
  | _ => None
  end.

(** [len(v)]. *)
Definition py_len (v : pyval) : option nat :=
  match v with
  | PList l => Some (length l)
  | PStr s => Some (String.length s)
  | PDict d => Some (length d)
  | _ => None
  end.

(** The elements a [for] loop visits. *)
Definition py_iter (v : pyval) : option (list pyval) :=
  match v with
  | PList l => Some l
  | PDict d => Some (map (fun kv => PStr (fst kv)) d)
  | PStr s => Some (map (fun c => PStr (String c EmptyString)) (list_ascii_of_string s))
  | _ => None
  end.

(** [k = list(v.keys())[0]; v[k]]. *)
Definition first_item (v : pyval) : option (string * pyval) :=
  match v with
  | PDict (kv :: _) => Some kv
  | _ => None
  end.

(** [x + v] for an int accumulator [x] ([TypeError] on non-numbers). *)
Definition py_add_int (x : Z) (v : pyval) : option Z :=
  match v with
  | PInt z => Some (x + z)
  | PBool b => Some (x + Z.b2z b)
  | _ => None
  end.

(** Option monad. *)
Definition obind {A B} (m : option A) (f : A -> option B) : option B :=
  match m with Some a => f a | None => None end.

Notation "'let*' x ':=' m 'in' f" := (obind m (fun x => f))
  (at level 200, x name, m at level 100, f at level 200).
Notation "'let*' ' p ':=' m 'in' f" := (obind m (fun x => match x with p => f end))
  (at level 200, p pattern, m at level 100, f at level 200).

(** ** Strings *)

Fixpoint split_on (c : ascii) (s : string) : list string :=
  match s with
  | EmptyString => [""]
  | String x r =>
      if Ascii.eqb x c then "" :: split_on c r
      else match split_on c r with
           | h :: t => String x h :: t
           | [] => [String x ""]
           end
  end.

Definition lower_ascii (c : ascii) : ascii :=
  let n := nat_of_ascii c in
  if (65 <=? n)%nat && (n <=? 90)%nat then ascii_of_nat (n + 32) else c.

(** [s.lower()] on ASCII text. *)
Fixpoint lower (s : string) : string :=
  match s with
  | EmptyString => EmptyString
  | String c r => String (lower_ascii c) (lower r)
  end.

(** [pat in s]. *)
Fixpoint contains (pat s : string) : bool :=
  String.prefix pat s ||
  match s with
  | EmptyString => false
  | String _ r => contains pat r
  end.

Definition digit_val (c : ascii) : option Z :=
  let n := nat_of_ascii c in
  if (48 <=? n)%nat && (n <=? 57)%nat then Some (Z.of_nat (n - 48)) else None.

Fixpoint digits_acc (acc : Z) (s : string) : option Z :=
  match s with
  | EmptyString => Some acc
  | String c r =>
      match digit_val c with
      | Some d => digits_acc (acc * 10 + d) r
      | None => None
      end
  end.

Definition digits_val (s : string) : option Z :=
  match s with
  | EmptyString => None
  | _ => digits_acc 0 s
  end.

(** [int(s)] on a string: an optional sign and a non-empty run of ASCII
    digits ([ValueError] otherwise; surrounding blanks and [_] separators,
    which [int] also accepts, are not modelled). *)
Definition py_int (s : string) : option Z :=
  match s with
  | String "-" r => option_map Z.opp (digits_val r)
  | String "+" r => digits_val r
  | _ => digits_val s
  end.

Fixpoint pos_digits (fuel : nat) (n : N) (acc : string) : string :=
  match fuel with
  | O => acc
  | S f =>
      let acc' := String (ascii_of_N (48 + N.modulo n 10)) acc in
      let q := N.div n 10 in
      if N.eqb q 0 then acc' else pos_digits f q acc'
  end.

(** [str(z)] / [f"{z}"] for an int. *)
Definition py_str_int (z : Z) : string :=
  match z with
  | Z0 => "0"
  | Zpos p => pos_digits (Pos.size_nat p) (Npos p) ""
  | Zneg p => "-" ++ pos_digits (Pos.size_nat p) (Npos p) ""
  end.

(** ** get_phase, parse_over_ball, safe_get *)

Definition get_phase (over_number : Z) : string :=
  if over_number <=? 5 then "powerplay"
  else if over_number <=? 14 then "middle"
  else "death".

Definition parse_over_ball (over_ball_key : string) : option (Z * Z) :=
  let parts := split_on "." over_ball_key in
  let* over_num := py_int (hd "" parts) in
  let* ball_num := (if (1 <? length parts)%nat then py_int (nth 1 parts "")
                    else Some 1) in
  Some (over_num, ball_num).

Fixpoint safe_get_loop (result : pyval) (keys : list string) (default : pyval)
  : option pyval :=
  match keys with
  | [] => Some result
  | key :: keys' =>
      match result with
      | PDict d =>
          safe_get_loop (match assoc key d with Some x => x | None => default end)
                        keys' default
      | _ => None                      (* the early [return default] *)
      end
  end.

Definition safe_get (data : pyval) (keys : list string) (default : pyval) : pyval :=
  match safe_get_loop data keys default with
  | None => default
  | Some PNone => default
  | Some result => result
  end.

(** ** extract_innings_and_deliveries *)

(** One dict of [deliveries_data]. *)
Record delivery_rec := {
  match_id : Z;
  innings_number : Z;
  over_number : Z;
  ball_number : Z;
  batting_team : pyval;
  bowling_team : pyval;
  striker : pyval;
  non_striker : pyval;
  bowler : pyval;
  runs_batter : pyval;
  runs_extras : pyval;
  runs_total : pyval;
  extras_wides : pyval;
  extras_noballs : pyval;
  extras_byes : pyval;
  extras_legbyes : pyval;
  extras_penalty : pyval;
  is_wicket : bool;
  wicket_type : pyval;
  player_dismissed : pyval;
  fielder : pyval;
  is_boundary : bool;
  is_four : bool;
  is_six : bool;
  is_dot_ball : bool;
  is_legal_delivery : bool;
  phase : string
}.

(** One dict of [innings_data]; [inn_total_overs] is the string passed to
    [float()].  [float()] itself is not modelled: it raises [ValueError] on
    a string such as "3.-1" (a negative ball), which the model keeps. *)
Record innings_rec := {
  inn_match_id : Z;
  inn_innings_number : Z;
  inn_batting_team : pyval;
  inn_bowling_team : pyval;
  inn_total_runs : Z;
  inn_total_wickets : Z;
  inn_total_overs : string;
  inn_total_extras : Z;
  inn_is_super_over : bool
}.

(** Locals of the delivery loop. *)
Record acc := {
  total_runs : Z;
  total_wickets : Z;
  total_extras : Z;
  last_over : Z;
  last_ball : Z;
  deliveries_data : list delivery_rec
}.

Definition acc0 : acc :=
  {| total_runs := 0; total_wickets := 0; total_extras := 0;
     last_over := 0; last_ball := 0; deliveries_data := [] |}.

(** A [for] loop whose body may raise. *)
Fixpoint fold_opt {A B} (f : A -> B -> option A) (l : list B) (a : A) : option A :=
  match l with
  | [] => Some a
  | x :: l' => let* a' := f a x in fold_opt f l' a'
  end.

(** [x.get(k1) or x.get(k2)]. *)
Definition get_or (x : pyval) (k1 k2 : string) (default : pyval) : option pyval :=
  let* v1 := dict_get x k1 default in
  if truthy v1 then Some v1 else dict_get x k2 default.

(** Wicket block: [(is_wicket, wicket_type, player_dismissed, fielder)]. *)
Definition extract_wicket (wicket : pyval) : option (bool * pyval * pyval * pyval) :=
  if truthy wicket then
    let* w := (match wicket with PList _ => py_index wicket 0 | _ => Some wicket end) in
    let* wicket_type := dict_get w "kind" PNone in
    let* player_dismissed := dict_get w "player_out" PNone in
    let* fielders := dict_get w "fielders" (PList []) in
    let* fielder :=
      (if truthy fielders then
         let* f0 := py_index fielders 0 in
         match f0 with PDict _ => dict_get f0 "name" PNone | _ => Some f0 end
       else Some PNone) in
    Some (true, wicket_type, player_dismissed, fielder)
  else Some (false, PNone, PNone, PNone).

(** Body of [for delivery_entry in deliveries]. *)
Definition extract_delivery (mid inn : Z) (bat bowl : pyval) (a : acc)
    (delivery_entry : pyval) : option acc :=
  let* '(over_ball_key, delivery) := first_item delivery_entry in
  let* '(over_num, ball_num) := parse_over_ball over_ball_key in
  let* runs := dict_get delivery "runs" (PDict []) in
  let* rb := get_or runs "batsman" "batter" (PInt 0) in
  let r_batter := py_or rb (PInt 0) in
  let* re := dict_get runs "extras" (PInt 0) in
  let r_extras := py_or re (PInt 0) in
  let* rt := dict_get runs "total" (PInt 0) in
  let r_total := py_or rt (PInt 0) in
  let* truns := py_add_int (total_runs a) r_total in
  let* textras := py_add_int (total_extras a) r_extras in
  let* extras := dict_get delivery "extras" (PDict []) in
  let* ew := dict_get extras "wides" (PInt 0) in
  let* en := dict_get extras "noballs" (PInt 0) in
  let* eb := dict_get extras "byes" (PInt 0) in
  let* el := dict_get extras "legbyes" (PInt 0) in
  let* ep := dict_get extras "penalty" (PInt 0) in
  let e_wides := py_or ew (PInt 0) in
  let e_noballs := py_or en (PInt 0) in
  let is_legal := py_eq_int e_wides 0 && py_eq_int e_noballs 0 in
  let* wicket := get_or delivery "wicket" "wickets" PNone in
  let* '(is_wkt, wkt_type, dismissed, fld) := extract_wicket wicket in
  let twickets := if is_wkt then total_wickets a + 1 else total_wickets a in
  let four := py_eq_int r_batter 4 in
  let six := py_eq_int r_batter 6 in
  let* strk := get_or delivery "batsman" "batter" PNone in
  let* nstrk := dict_get delivery "non_striker" PNone in
  let* bwl := dict_get delivery "bowler" PNone in
  let d := {|
    match_id := mid; innings_number := inn;
    over_number := over_num; ball_number := ball_num;
    batting_team := bat; bowling_team := bowl;
    striker := strk; non_striker := nstrk; bowler := bwl;
    runs_batter := r_batter; runs_extras := r_extras; runs_total := r_total;
    extras_wides := e_wides; extras_noballs := e_noballs;
    extras_byes := py_or eb (PInt 0); extras_legbyes := py_or el (PInt 0);
    extras_penalty := py_or ep (PInt 0);
    is_wicket := is_wkt; wicket_type := wkt_type;
    player_dismissed := dismissed; fielder := fld;
    is_boundary := four || six; is_four := four; is_six := six;
    is_dot_ball := py_eq_int r_total 0 && is_legal;
    is_legal_delivery := is_legal;
    phase := get_phase over_num |} in
  Some {| total_runs := truns; total_wickets := twickets; total_extras := textras;
          last_over := over_num; last_ball := ball_num;
          deliveries_data := (deliveries_data a ++ [d])%list |}.

(** [for team in teams: if team != batting_team: bowling_team = team; break]. *)
Fixpoint infer_bowling_team (teams : list pyval) (bat : pyval) : pyval :=
  match teams with
  | [] => PNone
  | team :: teams' =>
      if negb (py_eqb team bat) then team else infer_bowling_team teams' bat
  end.

(** Body of [for idx, innings_entry in enumerate(innings_list)]. *)
Definition extract_innings (mid : Z) (teams : pyval) (idx : nat) (innings_entry : pyval)
  : option (innings_rec * list delivery_rec) :=
  let* '(innings_key, innings_info) := first_item innings_entry in
  let inn := Z.of_nat idx + 1 in
  let* bat := dict_get innings_info "team" PNone in
  let* team_list := py_iter teams in
  let bowl := infer_bowling_team team_list bat in
  let super := contains "super" (lower innings_key) in
  let* deliveries := dict_get innings_info "deliveries" (PList []) in
  let* entries := py_iter deliveries in
  let* a := fold_opt (extract_delivery mid inn bat bowl) entries acc0 in
  Some ({| inn_match_id := mid; inn_innings_number := inn;
           inn_batting_team := bat; inn_bowling_team := bowl;
           inn_total_runs := total_runs a; inn_total_wickets := total_wickets a;
           inn_total_overs := py_str_int (last_over a) ++ "." ++ py_str_int (last_ball a);
           inn_total_extras := total_extras a; inn_is_super_over := super |},
        deliveries_data a).

Fixpoint innings_loop (mid : Z) (teams : pyval) (idx : nat) (entries : list pyval)
  : option (list innings_rec * list delivery_rec) :=
  match entries with
  | [] => Some ([], [])
  | e :: es =>
      let* '(r, ds) := extract_innings mid teams idx e in
      let* '(rs, dss) := innings_loop mid teams (S idx) es in
      Some (r :: rs, (ds ++ dss)%list)
  end.

Definition extract_innings_and_deliveries (yaml_data : pyval) (mid : Z) (teams : pyval)
  : option (list innings_rec * list delivery_rec) :=
  let* innings_list := dict_get yaml_data "innings" (PList []) in
  let* entries := py_iter innings_list in
  innings_loop mid teams 0 entries.

(** ** extract_match_data, extract_players *)

Record match_rec := {
  source_file : string;
  match_type : pyval;
  competition : pyval;
  season : pyval;
  match_date : pyval;
  venue : pyval;
  city : pyval;
  team1 : pyval;
  team2 : pyval;
  toss_winner : pyval;
  toss_decision : pyval;
  winner : pyval;
  win_by_runs : pyval;
  win_by_wickets : pyval;
  result_type : pyval;
  player_of_match : pyval
}.

Definition extract_match_data (yaml_data : pyval) (sf : string) : option match_rec :=
  let* info := dict_get yaml_data "info" (PDict []) in
  let* dates := dict_get info "dates" (PList []) in
  let* mdate := (if truthy dates then py_index dates 0 else Some PNone) in
  let* seas :=
    (if truthy mdate then
       match mdate with
       | PStr s => option_map PInt (py_int (hd "" (split_on "-" s)))
       | PDate y _ _ => Some (PInt y)
       | _ => Some PNone
       end
     else Some PNone) in
  let* outcome := dict_get info "outcome" (PDict []) in
  let* win := dict_get outcome "winner" PNone in
  let* win_by := dict_get outcome "by" (PDict []) in
  let* wr := dict_get win_by "runs" (PInt 0) in
  let* ww := dict_get win_by "wickets" (PInt 0) in
  let* rtype :=
    (if dict_has outcome "result" then dict_get outcome "result" PNone
     else if negb (truthy win) then Some (PStr "no result")
     else Some (PStr "normal")) in
  let* teams := dict_get info "teams" (PList []) in
  let* n := py_len teams in
  let* t1 := (if (0 <? n)%nat then py_index teams 0 else Some PNone) in
  let* t2 := (if (1 <? n)%nat then py_index teams 1 else Some PNone) in
  let* pom := dict_get info "player_of_match" (PList []) in
  let* pom0 := (if truthy pom then py_index pom 0 else Some PNone) in
  let* mtype := dict_get info "match_type" (PStr "T20") in
  let* comp := dict_get info "competition" (PStr "IPL") in
  let* ven := dict_get info "venue" (PStr "Unknown") in
  let* cty := dict_get info "city" PNone in
  Some {| source_file := sf; match_type := mtype; competition := comp;
          season := seas; match_date := mdate; venue := ven; city := cty;
          team1 := t1; team2 := t2;
          toss_winner := safe_get info ["toss"; "winner"] PNone;
          toss_decision := safe_get info ["toss"; "decision"] PNone;
          winner := win; win_by_runs := py_or wr (PInt 0);
          win_by_wickets := py_or ww (PInt 0);
          result_type := rtype; player_of_match := pom0 |}.

(** [(player_name, team)] pairs, roster order. *)
Definition extract_players (yaml_data : pyval) : option (list (pyval * string)) :=
  let* info := dict_get yaml_data "info" (PDict []) in
  let* players_data := dict_get info "players" (PDict []) in
  match players_data with
  | PDict items =>
      fold_opt (fun acc '(team, player_list) =>
                  let* names := py_iter player_list in
                  Some (acc ++ map (fun p => (p, team)) names)%list)
               items []
  | _ => None                                   (* no [.items()] *)
  end.

(** ** Storage *)

Record db := {
  matches : list (Z * match_rec);
  players : list (pyval * string);
  innings : list innings_rec;
  ball_by_ball : list delivery_rec
}.

(** A connection with [autocommit = False]: [committed] is what the last
    [commit] left, [current] what the open transaction sees.  The
    [match_id] sequence is not transactional. *)
Record conn := {
  committed : db;
  current : db;
  match_seq : Z
}.

Definition set_current (c : conn) (d : db) : conn :=
  {| committed := committed c; current := d; match_seq := match_seq c |}.

Definition commit (c : conn) : conn :=
  {| committed := current c; current := current c; match_seq := match_seq c |}.

Definition rollback (c : conn) : conn :=
  {| committed := committed c; current := committed c; match_seq := match_seq c |}.

(** [SELECT match_id FROM matches WHERE source_file = %s]. *)
Definition match_exists (d : db) (sf : string) : bool :=
  existsb (fun r => String.eqb (source_file (snd r)) sf) (matches d).

Definition insert_match (c : conn) (md : match_rec) : option Z * conn :=
  if match_exists (current c) (source_file md) then (None, c)
  else
    let mid := match_seq c + 1 in
    let d := current c in
    (Some mid,
     {| committed := committed c;
        current := {| matches := (matches d ++ [(mid, md)])%list;
                      players := players d; innings := innings d;
                      ball_by_ball := ball_by_ball d |};
        match_seq := mid |}).

Definition player_eqb (p q : pyval * string) : bool :=
  py_eqb (fst p) (fst q) && String.eqb (snd p) (snd q).

(** [ON CONFLICT (player_name, team) DO NOTHING]. *)
Definition insert_players (c : conn) (ps : list (pyval * string)) : conn :=
  let d := current c in
  set_current c
    {| matches := matches d;
       players := fold_left (fun tbl p => if existsb (player_eqb p) tbl then tbl
                                          else (tbl ++ [p])%list) ps (players d);
       innings := innings d; ball_by_ball := ball_by_ball d |}.

Definition insert_innings (c : conn) (rs : list innings_rec) : conn :=
  let d := current c in
  set_current c {| matches := matches d; players := players d;
                   innings := (innings d ++ rs)%list; ball_by_ball := ball_by_ball d |}.

Definition insert_deliveries (c : conn) (ds : list delivery_rec) : conn :=
  let d := current c in
  set_current c {| matches := matches d; players := players d; innings := innings d;
                   ball_by_ball := (ball_by_ball d ++ ds)%list |}.

(** ** process_yaml_file and main *)

(** What [open] followed by [yaml.safe_load] yields for one file. *)
Inductive file_content :=
| FOpenError                  (* open/read raises: OSError, UnicodeDecodeError *)
| FYamlError                  (* safe_load raises yaml.YAMLError *)
| FLoaded (v : pyval).

(** [True], [False], or an exception propagated by [raise]. *)
Inductive outcome := Ingested | NotIngested | Raised.

Definition process_yaml_file (c : conn) (filename : string) (fc : file_content)
  : outcome * conn :=
  match fc with
  | FOpenError => (Raised, c)
  | FYamlError => (NotIngested, c)
  | FLoaded yaml_data =>
      if negb (truthy yaml_data) then (NotIngested, c)
      else
        match extract_match_data yaml_data filename with
        | None => (Raised, c)
        | Some md =>
            match insert_match c md with
            | (None, c1) => (NotIngested, c1)
            | (Some mid, c1) =>
                match extract_players yaml_data with
                | None => (Raised, c1)
                | Some ps =>
                    let c2 := insert_players c1 ps in
                    let teams := match obind (dict_get yaml_data "info" (PDict []))
                                             (fun i => dict_get i "teams" (PList [])) with
                                 | Some t => t | None => PList [] end in
                    match extract_innings_and_deliveries yaml_data mid teams with
                    | None => (Raised, c2)
                    | Some (rs, ds) =>
                        (Ingested, insert_deliveries (insert_innings c2 rs) ds)
                    end
                end
            end
        end
  end.

Record counts := {
  success_count : nat;
  skip_count : nat;
  error_count : nat
}.

Definition counts0 : counts := {| success_count := 0; skip_count := 0; error_count := 0 |}.

(** One iteration of [for filepath in yaml_files]; a file is given by its
    base name and what loading it yields. *)
Definition main_step (s : conn * counts) (f : string * file_content) : conn * counts :=
  let '(c, n) := s in
  match process_yaml_file c (fst f) (snd f) with
  | (Ingested, c1) =>
      (commit c1, {| success_count := S (success_count n); skip_count := skip_count n;
                     error_count := error_count n |})
  | (NotIngested, c1) =>
      (c1, {| success_count := success_count n; skip_count := S (skip_count n);
              error_count := error_count n |})
  | (Raised, c1) =>
      (rollback c1, {| success_count := success_count n; skip_count := skip_count n;
                       error_count := S (error_count n) |})
  end.

Definition ingest_files (c : conn) (files : list (string * file_content)) : conn * counts :=
  fold_left main_step files (c, counts0).

(** ** The accessor as the spec words it

    Strict traversal: [None] as soon as a key is missing or a value on the
    path is not a mapping; the spec's [safe_get] returns the default in that
    case and when the reached value is [None]. *)
Fixpoint lookup_path (v : pyval) (keys : list string) : option pyval :=
  match keys with
  | [] => Some v
  | k :: ks =>
      match v with
      | PDict d => match assoc k d with Some x => lookup_path x ks | None => None end
      | _ => None
      end
  end.

Definition spec_safe_get (data : pyval) (keys : list string) (default : pyval) : pyval :=
  match lookup_path data keys with
  | None => default
  | Some PNone => default
  | Some v => v
  end.

(** ** Auxiliary predicates used in the statements *)

Fixpoint has_char (c : ascii) (s : string) : bool :=
  match s with
  | EmptyString => false
  | String x r => Ascii.eqb x c || has_char c r
  end.

(** [x + v1 + v2 + ...] evaluated left to right. *)
Fixpoint sum_from (x : Z) (l : list pyval) : option Z :=
  match l with
  | [] => Some x
  | v :: l' => let* y := py_add_int x v in sum_from y l'
  end.

(** The delivery entries an innings entry lists. *)
Definition entry_deliveries (innings_entry : pyval) : option (list pyval) :=
  let* '(_, innings_info) := first_item innings_entry in
  let* deliveries := dict_get innings_info "deliveries" (PList []) in
  py_iter deliveries.

(** The relations between the flags of a delivery record. *)
Definition flags_ok (d : delivery_rec) : Prop :=
  is_legal_delivery d = py_eq_int (extras_wides d) 0 && py_eq_int (extras_noballs d) 0 /\
  is_four d = py_eq_int (runs_batter d) 4 /\
  is_six d = py_eq_int (runs_batter d) 6 /\
  is_boundary d = py_eq_int (runs_batter d) 4 || py_eq_int (runs_batter d) 6 /\
  is_dot_ball d = py_eq_int (runs_total d) 0 && is_legal_delivery d.

(** ** Sample inputs *)

Definition empty_db : db := {| matches := []; players := []; innings := []; ball_by_ball := [] |}.

Definition empty_conn : conn := {| committed := empty_db; current := empty_db; match_seq := 0 |}.

(** A short match: a four, then a wide with a stumping, and a super over
    without deliveries. *)
Definition sample_yaml : pyval :=
  PDict [("info", PDict [("teams", PList [PStr "MI"; PStr "CSK"]);
                         ("dates", PList [PDate 2025 3 22]);
                         ("players", PDict [("MI", PList [PStr "A"]); ("CSK", PList [PStr "B"])])]);
         ("innings", PList [
            PDict [("1st innings", PDict [("team", PStr "MI"); ("deliveries", PList [
               PDict [("0.1", PDict [("batsman", PStr "A"); ("bowler", PStr "B");
                        ("runs", PDict [("batsman", PInt 4); ("extras", PInt 0); ("total", PInt 4)])])];
               PDict [("0.2", PDict [("batsman", PStr "A"); ("bowler", PStr "B");
                        ("runs", PDict [("batsman", PInt 0); ("extras", PInt 1); ("total", PInt 1)]);
                        ("extras", PDict [("wides", PInt 1)]);
                        ("wicket", PDict [("kind", PStr "stumped"); ("player_out", PStr "A");
                                          ("fielders", PList [PStr "K"])])])]])])];
            PDict [("Super Over", PDict [("team", PStr "CSK")])]])].

Definition sample_teams : pyval := PList [PStr "MI"; PStr "CSK"].

(** A delivery whose batter scores 4 while its total is recorded as 0. *)
Definition four_with_zero_total_yaml : pyval :=
  PDict [("innings", PList [
    PDict [("1st innings", PDict [("team", PStr "MI"); ("deliveries", PList [
      PDict [("0.1", PDict [("runs", PDict [("batsman", PInt 4); ("total", PInt 0)])])]])])]])].

(** A team list naming the batting team twice. *)
Definition same_team_twice : pyval := PList [PStr "MI"; PStr "MI"].

Definition one_innings_yaml : pyval :=
  PDict [("innings", PList [PDict [("1st innings", PDict [("team", PStr "MI")])]])].

(** An innings whose only delivery is labelled "7". *)
Definition label_without_ball_entry : pyval :=
  PDict [("1st innings", PDict [("team", PStr "MI"); ("deliveries", PList [
    PDict [("7", PDict [("runs", PDict [("total", PInt 1)])])]])])].

(** An innings with a single four. *)
Definition single_four_entry : pyval :=
  PDict [("1st innings", PDict [("team", PStr "MI"); ("deliveries", PList [
    PDict [("0.1", PDict [("runs", PDict [("batsman", PInt 4); ("total", PInt 4)])])]])])].

(** A record whose second delivery has the label "x.2". *)
Definition bad_label_yaml : pyval :=
  PDict [("info", PDict [("teams", PList [PStr "MI"; PStr "CSK"])]);
         ("innings", PList [
            PDict [("1st innings", PDict [("team", PStr "MI"); ("deliveries", PList [
               PDict [("0.1", PDict [("runs", PDict [("total", PInt 0)])])];
               PDict [("x.2", PDict [("runs", PDict [("total", PInt 0)])])]])])]])].

Definition bad_label_entry : pyval :=
  PDict [("1st innings", PDict [("team", PStr "MI"); ("deliveries", PList [
     PDict [("0.1", PDict [("runs", PDict [("total", PInt 0)])])];
     PDict [("x.2", PDict [("runs", PDict [("total", PInt 0)])])]])])].

(** No row of a players table repeats an earlier one. *)
Definition rows_distinct (tbl : list (pyval * string)) : Prop :=
  forall i j p q, (i < j)%nat -> nth_error tbl i = Some p -> nth_error tbl j = Some q ->
  player_eqb q p = false.

(** Every innings row names a match row, and every delivery row names an
    innings row of its match with its innings number. *)
Definition linked_db (d : db) : Prop :=
  Forall (fun r => In (inn_match_id r) (map fst (matches d))) (innings d) /\
  Forall (fun x => exists r, In r (innings d) /\ inn_match_id r = match_id x /\
                             inn_innings_number r = innings_number x) (ball_by_ball d).

(** A match dated "22/03/2025": no year before a "-". *)
Definition slash_date_yaml : pyval :=
  PDict [("info", PDict [("dates", PList [PStr "22/03/2025"])])].

(** A match whose [dates] is a single quoted string, not a list. *)
Definition string_dates_yaml : pyval :=
  PDict [("info", PDict [("dates", PStr "2025-03-22")])].

(** A run over six files: a new match, the same file again, a record
    with a bad delivery label, a second match, a YAML error and an
    unreadable file. *)
Definition sample_files : list (string * file_content) :=
  [("m1.yaml", FLoaded sample_yaml); ("m1.yaml", FLoaded sample_yaml);
   ("bad.yaml", FLoaded bad_label_yaml); ("m2.yaml", FLoaded sample_yaml);
   ("broken.yaml", FYamlError); ("gone.yaml", FOpenError)].

(** A match whose [player_of_match] is a single string, not a list. *)
Definition string_pom_yaml : pyval :=
  PDict [("info", PDict [("player_of_match", PStr "V Kohli")])].

(** ** Lemmas *)

Ltac unbind H :=
  repeat match type of H with
  | obind ?m _ = _ =>
      let E := fresh "E" in
      destruct m eqn:E; cbn [obind] in H; [|discriminate H]
  | (let '(_, _) := ?p in _) = _ => destruct p
  | (match ?p with (_, _) => _ end) = _ => destruct p
  end.

Lemma split_on_nochar : forall c s, has_char c s = false -> split_on c s = [s].
Proof.
  intros c s; induction s as [|x r IH]; simpl; intros H; [reflexivity|].
  apply orb_false_iff in H as [Hx Hr].
  rewrite Hx, (IH Hr). reflexivity.
Qed.

Lemma split_on_app : forall c s1 s2,
  has_char c s1 = false -> split_on c (s1 ++ String c s2) = s1 :: split_on c s2.
Proof.
  intros c s1 s2; induction s1 as [|x r IH]; simpl; intros H.
  - rewrite Ascii.eqb_refl. reflexivity.
  - apply orb_false_iff in H as [Hx Hr].
    rewrite Hx, (IH Hr). reflexivity.
Qed.

Lemma digits_acc_nodot : forall s acc z, digits_acc acc s = Some z -> has_char "." s = false.
Proof.
  induction s as [|c r IH]; simpl; intros acc z H; [reflexivity|].
  destruct (digit_val c) eqn:Ed; [|discriminate H].
  destruct (Ascii.eqb_spec c "."); [subst; discriminate Ed|].
  simpl. eapply IH; eassumption.
Qed.

Lemma digits_val_nodot : forall s z, digits_val s = Some z -> has_char "." s = false.
Proof.
  intros [|c r] z H; [discriminate H|]. eapply digits_acc_nodot; exact H.
Qed.

Lemma py_int_nodot : forall s z, py_int s = Some z -> has_char "." s = false.
Proof.
  intros [|c r] z H; [discriminate H|].
  destruct c as [[] [] [] [] [] [] [] []];
    cbn [py_int] in H;
    try (destruct (digits_val r) eqn:E; [|discriminate H]);
    cbn [has_char];
    try (apply (digits_val_nodot r _ E));
    try (apply (digits_val_nodot _ _ H)).
Qed.

Lemma safe_get_loop_app : forall ks1 ks2 data v default,
  lookup_path data ks1 = Some v ->
  safe_get_loop data (ks1 ++ ks2)%list default = safe_get_loop v ks2 default.
Proof.
  induction ks1 as [|k ks1 IH]; intros ks2 data v default H.
  - injection H as ->. reflexivity.
  - destruct data as [| | | | | |d]; try discriminate H.
    cbn [lookup_path] in H. cbn [app safe_get_loop].
    destruct (assoc k d) as [x|]; [|discriminate H].
    exact (IH ks2 x v default H).
Qed.

Lemma lookup_path_app : forall ks1 ks2 data v,
  lookup_path data ks1 = Some v ->
  lookup_path data (ks1 ++ ks2)%list = lookup_path v ks2.
Proof.
  induction ks1 as [|k ks1 IH]; intros ks2 data v H.
  - injection H as ->. reflexivity.
  - destruct data as [| | | | | |d]; try discriminate H.
    cbn [lookup_path] in H. cbn [app lookup_path].
    destruct (assoc k d) as [x|]; [|discriminate H].
    exact (IH ks2 x v H).
Qed.

(** ** Claims *)

(** C1: the phase classifier returns "powerplay" exactly for over indices
    up to 5, "middle" exactly for 6 to 14 and "death" exactly from 15 on;
    in particular 5, 6, 14 and 15 map to powerplay, middle, middle, death. *)
Theorem get_phase_boundaries : forall n : Z,
  (get_phase n = "powerplay" <-> n <= 5) /\
  (get_phase n = "middle" <-> 6 <= n <= 14) /\
  (get_phase n = "death" <-> 15 <= n) /\
  get_phase 5 = "powerplay" /\ get_phase 6 = "middle" /\
  get_phase 14 = "middle" /\ get_phase 15 = "death".
Proof.
  intros n. unfold get_phase.
  destruct (Z.leb_spec n 5); destruct (Z.leb_spec n 14);
    repeat split; intros; try discriminate; try reflexivity; lia.
Qed.

(** C2: a label "<int>.<int>" parses to the pair of the two integers and a
    label "<int>" without fractional part to (that integer, 1); "16.3",
    "0" and "19.6" give (16, 3), (0, 1) and (19, 6).  "<int>" is any string
    [int()] accepts in the model (optional sign, decimal digits). *)
Theorem parse_over_ball_labels : forall s1 s2 a b,
  py_int s1 = Some a -> py_int s2 = Some b ->
  parse_over_ball (s1 ++ "." ++ s2) = Some (a, b) /\
  parse_over_ball s1 = Some (a, 1) /\
  parse_over_ball "16.3" = Some (16, 3) /\
  parse_over_ball "0" = Some (0, 1) /\
  parse_over_ball "19.6" = Some (19, 6).
Proof.
  intros s1 s2 a b H1 H2.
  pose proof (py_int_nodot _ _ H1) as N1.
  pose proof (py_int_nodot _ _ H2) as N2.
  repeat split; try reflexivity; unfold parse_over_ball.
  - cbn [append]. rewrite (split_on_app _ _ _ N1), (split_on_nochar _ _ N2).
    cbn [hd length nth Nat.ltb Nat.leb]. rewrite H1. cbn [obind]. rewrite H2. reflexivity.
  - rewrite (split_on_nochar _ _ N1).
    cbn [hd length Nat.ltb Nat.leb]. rewrite H1. reflexivity.
Qed.

Lemma parse_over_ball_labels_witness :
  py_int "16" = Some 16 /\ py_int "3" = Some 3 /\
  parse_over_ball ("16" ++ "." ++ "3") = Some (16, 3).
Proof.
  split; [reflexivity|]. split; [reflexivity|].
  apply (parse_over_ball_labels "16" "3" 16 3); reflexivity.
Defined.

(** C9 (code bug): [safe_get] never raises, and on every input it falls
    in one of three cases.  When every key is found it returns the value
    reached, or the default when that value is None, as the spec says.
    When a value on the path is not a mapping it returns the default at
    once, as the spec says.  When a key is missing, however, it does not
    return the default: it substitutes the default for the missing value
    and keeps walking the remaining keys inside it, so a mapping default
    can yield one of its own entries, where the spec returns the default.
    [safe_get({"a": 1}, "x", "y", "z", default={"y": {"z": 9}})] is 9. *)
Theorem safe_get_missing_key_walks_into_default :
  (forall data keys v default,
     lookup_path data keys = Some v ->
     safe_get data keys default = spec_safe_get data keys default) /\
  (forall data ks1 v k ks2 default,
     lookup_path data ks1 = Some v -> (forall d, v <> PDict d) ->
     safe_get data (ks1 ++ k :: ks2)%list default = default /\
     spec_safe_get data (ks1 ++ k :: ks2)%list default = default) /\
  (forall data ks1 d k ks2 default,
     lookup_path data ks1 = Some (PDict d) -> assoc k d = None ->
     safe_get data (ks1 ++ k :: ks2)%list default = safe_get default ks2 default /\
     spec_safe_get data (ks1 ++ k :: ks2)%list default = default) /\
  safe_get (PDict [("a", PInt 1)]) ["x"; "y"; "z"] (PDict [("y", PDict [("z", PInt 9)])]) = PInt 9 /\
  spec_safe_get (PDict [("a", PInt 1)]) ["x"; "y"; "z"] (PDict [("y", PDict [("z", PInt 9)])]) =
    PDict [("y", PDict [("z", PInt 9)])].
Proof.
  split; [|split; [|split; [|split]]].
  - intros data keys v default H.
    pose proof (safe_get_loop_app keys [] data v default H) as Hl.
    rewrite app_nil_r in Hl. unfold safe_get, spec_safe_get. rewrite Hl, H. reflexivity.
  - intros data ks1 v k ks2 default H Hv.
    unfold safe_get, spec_safe_get.
    rewrite (safe_get_loop_app ks1 (k :: ks2) data v default H).
    rewrite (lookup_path_app ks1 (k :: ks2) data v H).
    destruct v as [| | | | | |d]; [..|exfalso; exact (Hv d eq_refl)];
      split; reflexivity.
  - intros data ks1 d k ks2 default H Hk.
    unfold safe_get, spec_safe_get.
    rewrite (safe_get_loop_app ks1 (k :: ks2) data (PDict d) default H).
    rewrite (lookup_path_app ks1 (k :: ks2) data (PDict d) H).
    cbn [safe_get_loop lookup_path]. rewrite Hk. split; reflexivity.
  - reflexivity.
  - reflexivity.
Qed.

Lemma safe_get_missing_key_walks_into_default_witness :
  lookup_path (PDict [("a", PInt 1)]) [] = Some (PDict [("a", PInt 1)]) /\
  assoc "x" [("a", PInt 1)] = None /\
  safe_get (PDict [("a", PInt 1)]) ([] ++ ["x"; "y"; "z"])%list
           (PDict [("y", PDict [("z", PInt 9)])]) =
  safe_get (PDict [("y", PDict [("z", PInt 9)])]) ["y"; "z"]
           (PDict [("y", PDict [("z", PInt 9)])]) /\
  lookup_path (PDict [("toss", PStr "MI")]) ["toss"] = Some (PStr "MI") /\
  safe_get (PDict [("toss", PStr "MI")]) (["toss"] ++ ["winner"])%list PNone = PNone.
Proof.
  destruct safe_get_missing_key_walks_into_default as (_ & Hnm & Hmiss & _).
  split; [reflexivity|]. split; [reflexivity|].
  split; [exact (proj1 (Hmiss (PDict [("a", PInt 1)]) [] [("a", PInt 1)] "x" ["y"; "z"]
                          (PDict [("y", PDict [("z", PInt 9)])]) eq_refl eq_refl))|].
  split; [reflexivity|].
  apply (proj1 (Hnm (PDict [("toss", PStr "MI")]) ["toss"] (PStr "MI") "winner" [] PNone
                  eq_refl (fun d H => ltac:(discriminate H)))).
Defined.

Lemma extract_delivery_spec : forall mid inn bat bowl a e a',
  extract_delivery mid inn bat bowl a e = Some a' ->
  exists key delivery d,
    first_item e = Some (key, delivery) /\
    parse_over_ball key = Some (over_number d, ball_number d) /\
    deliveries_data a' = (deliveries_data a ++ [d])%list /\
    last_over a' = over_number d /\ last_ball a' = ball_number d /\
    py_add_int (total_runs a) (runs_total d) = Some (total_runs a') /\
    py_add_int (total_extras a) (runs_extras d) = Some (total_extras a') /\
    total_wickets a' = total_wickets a + (if is_wicket d then 1 else 0) /\
    flags_ok d.
Proof.
  intros mid inn bat bowl a e a' H.
  unfold extract_delivery in H. unbind H.
  injection H as <-.
  do 3 eexists. split; [reflexivity|]. split; [|split; [reflexivity|]].
  - exact E0.
  - cbn. repeat split; try reflexivity; try assumption.
    destruct b; ring.
Qed.

Lemma fold_deliveries_spec : forall mid inn bat bowl es a a',
  fold_opt (extract_delivery mid inn bat bowl) es a = Some a' ->
  exists new,
    deliveries_data a' = (deliveries_data a ++ new)%list /\
    sum_from (total_runs a) (map runs_total new) = Some (total_runs a') /\
    sum_from (total_extras a) (map runs_extras new) = Some (total_extras a') /\
    total_wickets a' = total_wickets a + Z.of_nat (length (filter is_wicket new)) /\
    Forall flags_ok new /\
    (es <> [] -> exists key v,
        first_item (last es PNone) = Some (key, v) /\
        parse_over_ball key = Some (last_over a', last_ball a')) /\
    (es = [] -> a' = a).
Proof.
  intros mid inn bat bowl es. induction es as [|x es IH]; intros a a' H.
  - injection H as <-. exists []. rewrite app_nil_r.
    repeat split; try reflexivity; try (simpl; ring); try constructor; congruence.
  - cbn [fold_opt] in H. unbind H.
    destruct (extract_delivery_spec _ _ _ _ _ _ _ E)
      as (key & delivery & d & Hfi & Hparse & Hdd & Hlo & Hlb & Hr & Hx & Hw & Hf).
    destruct (IH _ _ H) as (new & Hd' & Hr' & Hx' & Hw' & Hf' & Hlast & Hnil).
    exists (d :: new). repeat split.
    + rewrite Hd', Hdd, <- app_assoc. reflexivity.
    + cbn [map sum_from]. rewrite Hr. exact Hr'.
    + cbn [map sum_from]. rewrite Hx. exact Hx'.
    + rewrite Hw', Hw. cbn [filter]. destruct (is_wicket d); cbn [length]; lia.
    + constructor; assumption.
    + intros _. destruct es as [|y es'].
      * rewrite (Hnil eq_refl). cbn [last]. exists key, delivery.
        rewrite Hlo, Hlb. split; assumption.
      * assert (Hne : y :: es' <> []) by discriminate.
        destruct (Hlast Hne) as (k & v & Hk & Hp). exists k, v. split; [|exact Hp].
        exact Hk.
    + discriminate.
Qed.

Lemma extract_innings_spec : forall mid teams idx e r ds,
  extract_innings mid teams idx e = Some (r, ds) ->
  exists key info tl entries a,
    first_item e = Some (key, info) /\
    dict_get info "team" PNone = Some (inn_batting_team r) /\
    py_iter teams = Some tl /\
    inn_bowling_team r = infer_bowling_team tl (inn_batting_team r) /\
    entry_deliveries e = Some entries /\
    fold_opt (extract_delivery mid (inn_innings_number r) (inn_batting_team r)
                (inn_bowling_team r)) entries acc0 = Some a /\
    ds = deliveries_data a /\
    inn_total_runs r = total_runs a /\
    inn_total_wickets r = total_wickets a /\
    inn_total_extras r = total_extras a /\
    inn_total_overs r = py_str_int (last_over a) ++ "." ++ py_str_int (last_ball a).
Proof.
  intros mid teams idx e r ds H.
  unfold extract_innings in H. unbind H.
  injection H as <- <-.
  exists s, p, l, l0, a. cbn.
  unfold entry_deliveries. rewrite E. cbn [obind]. rewrite E2. cbn [obind].
  repeat split; assumption.
Qed.

Lemma innings_loop_forall : forall (P : innings_rec -> Prop) (Q : delivery_rec -> Prop) mid teams,
  (forall idx e r ds, extract_innings mid teams idx e = Some (r, ds) -> P r /\ Forall Q ds) ->
  forall es idx rs dss, innings_loop mid teams idx es = Some (rs, dss) ->
  Forall P rs /\ Forall Q dss.
Proof.
  intros P Q mid teams Hstep es. induction es as [|e es IH]; intros idx rs dss H.
  - injection H as <- <-. split; constructor.
  - cbn [innings_loop] in H. unbind H. injection H as <- <-.
    destruct (Hstep _ _ _ _ E) as [Hp Hq].
    destruct (IH _ _ _ E0) as [Hps Hqs].
    split; [constructor; assumption | apply Forall_app; split; assumption].
Qed.

Lemma extract_all_forall : forall (P : innings_rec -> Prop) (Q : delivery_rec -> Prop) y mid teams inns dels,
  (forall idx e r ds, extract_innings mid teams idx e = Some (r, ds) -> P r /\ Forall Q ds) ->
  extract_innings_and_deliveries y mid teams = Some (inns, dels) ->
  Forall P inns /\ Forall Q dels.
Proof.
  intros P Q y mid teams inns dels Hstep H.
  unfold extract_innings_and_deliveries in H. unbind H.
  exact (innings_loop_forall P Q mid teams Hstep _ _ _ _ H).
Qed.

Lemma infer_bowling_team_first : forall tl bat,
  (exists pre t post, tl = (pre ++ t :: post)%list /\
     Forall (fun u => py_eqb u bat = true) pre /\ py_eqb t bat = false /\
     infer_bowling_team tl bat = t) \/
  (Forall (fun u => py_eqb u bat = true) tl /\ infer_bowling_team tl bat = PNone).
Proof.
  intros tl bat. induction tl as [|t tl IH].
  - right. split; [constructor | reflexivity].
  - cbn [infer_bowling_team]. destruct (py_eqb t bat) eqn:Et; cbn [negb].
    + destruct IH as [(pre & u & post & Htl & Hpre & Hu & Hinf) | (Hall & Hinf)].
      * left. exists (t :: pre), u, post. subst tl.
        repeat split; try reflexivity; try (constructor; assumption); assumption.
      * right. split; [constructor; assumption | exact Hinf].
    + left. exists [], t, tl. repeat split; [constructor | exact Et].
Qed.

Lemma extract_match_data_source_file : forall y sf md,
  extract_match_data y sf = Some md -> source_file md = sf.
Proof.
  intros y sf md H. unfold extract_match_data in H. unbind H.
  injection H as <-. reflexivity.
Qed.

(** C3 (as stated): the batter's 4 does not make the delivery a non-dot
    ball when the record's own total is 0: the dot flag is computed from
    the total field alone. *)
Lemma four_with_zero_total_is_dot :
  match extract_innings_and_deliveries four_with_zero_total_yaml 1 sample_teams with
  | Some (_, [d]) =>
      py_eq_int (runs_batter d) 4 = true /\ is_legal_delivery d = true /\
      is_dot_ball d = true
  | _ => False
  end.
Proof. vm_compute. repeat split. Qed.

(** C3 (amended): for every extracted delivery, it is legal iff its wides
    and no-balls are both 0, is_four iff batter runs = 4, is_six iff batter
    runs = 6, is_boundary iff batter runs is 4 or 6, and is_dot_ball iff
    total runs = 0 and it is legal.  Hence a legal delivery with batter runs
    4 and a non-zero total has is_four and is_boundary true and is_dot_ball
    false, and a delivery with total 0 but a wide recorded is not a dot
    ball. *)
Theorem delivery_derived_flags : forall y mid teams inns dels,
  extract_innings_and_deliveries y mid teams = Some (inns, dels) ->
  Forall (fun d =>
    is_legal_delivery d = py_eq_int (extras_wides d) 0 && py_eq_int (extras_noballs d) 0 /\
    is_four d = py_eq_int (runs_batter d) 4 /\
    is_six d = py_eq_int (runs_batter d) 6 /\
    is_boundary d = py_eq_int (runs_batter d) 4 || py_eq_int (runs_batter d) 6 /\
    is_dot_ball d = py_eq_int (runs_total d) 0 && is_legal_delivery d /\
    (py_eq_int (runs_batter d) 4 = true -> is_legal_delivery d = true ->
     py_eq_int (runs_total d) 0 = false ->
     is_four d = true /\ is_boundary d = true /\ is_dot_ball d = false) /\
    (py_eq_int (runs_total d) 0 = true -> py_eq_int (extras_wides d) 0 = false ->
     is_dot_ball d = false)) dels.
Proof.
  intros y mid teams inns dels H.
  refine (proj2 (extract_all_forall (fun _ => True) _ y mid teams inns dels _ H)).
  intros idx e r ds He. split; [exact I|].
  destruct (extract_innings_spec _ _ _ _ _ _ He)
    as (key & info & tl & entries & a & _ & _ & _ & _ & _ & Hfold & Hds & _).
  destruct (fold_deliveries_spec _ _ _ _ _ _ _ Hfold) as (new & Hnew & _ & _ & _ & Hf & _).
  rewrite Hds, Hnew. cbn [acc0 deliveries_data app].
  refine (Forall_impl _ _ Hf).
  intros d (Hl & H4 & H6 & Hb & Hd).
  split; [exact Hl|]. split; [exact H4|]. split; [exact H6|].
  split; [exact Hb|]. split; [exact Hd|]. split.
  - intros A B C. rewrite H4, Hb, Hd, A, B, C. repeat split.
  - intros A B. rewrite Hd, Hl, A, B. reflexivity.
Qed.

Lemma delivery_derived_flags_witness :
  extract_innings_and_deliveries sample_yaml 1 sample_teams <> None /\
  match extract_innings_and_deliveries sample_yaml 1 sample_teams with
  | Some (inns, dels) => Forall (fun d => is_dot_ball d = py_eq_int (runs_total d) 0 && is_legal_delivery d) dels
  | None => True
  end.
Proof.
  split; [vm_compute; discriminate|].
  destruct (extract_innings_and_deliveries sample_yaml 1 sample_teams) as [[inns dels]|] eqn:E;
    [|exact I].
  refine (Forall_impl _ _ (delivery_derived_flags sample_yaml 1 sample_teams inns dels E)).
  intros d Hd. apply Hd.
Defined.

(** C4 (as stated): a two-entry team list naming the batting team twice
    leaves the bowling team unknown (None) although the list has 2
    entries. *)
Lemma same_team_twice_no_bowler :
  match extract_innings_and_deliveries one_innings_yaml 1 same_team_twice with
  | Some ([r], _) => inn_bowling_team r = PNone /\ py_len same_team_twice = Some 2%nat
  | _ => False
  end.
Proof. vm_compute. split; reflexivity. Qed.

(** C4 (amended): the bowling team of every innings is the first entry of
    the team list that differs from the batting team, and None when every
    entry equals the batting team; for a list of two distinct teams with
    the batting team one of them, it is the other team. *)
Theorem bowling_team_inference : forall y mid teams inns dels,
  extract_innings_and_deliveries y mid teams = Some (inns, dels) ->
  Forall (fun r =>
    (forall a b, teams = PList [PStr a; PStr b] -> a <> b ->
       (inn_batting_team r = PStr a -> inn_bowling_team r = PStr b) /\
       (inn_batting_team r = PStr b -> inn_bowling_team r = PStr a)) /\
    exists tl, py_iter teams = Some tl /\
      ((exists pre t post, tl = (pre ++ t :: post)%list /\
          Forall (fun u => py_eqb u (inn_batting_team r) = true) pre /\
          py_eqb t (inn_batting_team r) = false /\ inn_bowling_team r = t) \/
       (Forall (fun u => py_eqb u (inn_batting_team r) = true) tl /\
        inn_bowling_team r = PNone))) inns.
Proof.
  intros y mid teams inns dels H.
  refine (proj1 (extract_all_forall _ (fun _ => True) y mid teams inns dels _ H)).
  intros idx e r ds He.
  split; [|apply Forall_forall; intros; exact I].
  destruct (extract_innings_spec _ _ _ _ _ _ He)
    as (key & info & tl & entries & acc' & _ & _ & Htl & Hbowl & _).
  split.
  - intros a b -> Hab. cbn [py_iter] in Htl. injection Htl as <-.
    rewrite Hbowl. split; intros ->; cbn [infer_bowling_team py_eqb negb].
    + rewrite String.eqb_refl. cbn [negb].
      replace (String.eqb b a) with false by (symmetry; apply String.eqb_neq; congruence).
      reflexivity.
    + replace (String.eqb a b) with false by (symmetry; apply String.eqb_neq; exact Hab).
      reflexivity.
  - exists tl. split; [exact Htl|]. rewrite Hbowl. apply infer_bowling_team_first.
Qed.

Lemma bowling_team_inference_witness :
  extract_innings_and_deliveries sample_yaml 1 sample_teams <> None /\
  match extract_innings_and_deliveries sample_yaml 1 sample_teams with
  | Some (inns, _) => Forall (fun r => inn_batting_team r = PStr "MI" ->
                                        inn_bowling_team r = PStr "CSK") inns
  | None => True
  end.
Proof.
  split; [vm_compute; discriminate|].
  destruct (extract_innings_and_deliveries sample_yaml 1 sample_teams) as [[inns dels]|] eqn:E;
    [|exact I].
  refine (Forall_impl _ _ (bowling_team_inference sample_yaml 1 sample_teams inns dels E)).
  intros r [Hr _]. apply (Hr "MI" "CSK" eq_refl). discriminate.
Defined.

(** C5: processing a record whose source file name is already in the
    [matches] table leaves the connection (committed and uncommitted
    tables, and the id sequence) unchanged and counts the record as
    skipped, neither as ingested nor as an error.  The record is one the
    header extraction accepts, as it was when it was first ingested. *)
Theorem reingest_is_skipped : forall c n fname y md,
  extract_match_data y fname = Some md ->
  match_exists (current c) fname = true ->
  main_step (c, n) (fname, FLoaded y) =
  (c, {| success_count := success_count n; skip_count := S (skip_count n);
         error_count := error_count n |}).
Proof.
  intros c n fname y md Hmd Hex.
  unfold main_step, process_yaml_file. cbn [fst snd].
  destruct (truthy y); cbn [negb]; [|reflexivity].
  rewrite Hmd. unfold insert_match.
  rewrite (extract_match_data_source_file _ _ _ Hmd), Hex. reflexivity.
Qed.

Lemma reingest_is_skipped_witness :
  let s1 := main_step (empty_conn, counts0) ("m1.yaml", FLoaded sample_yaml) in
  match_exists (current (fst s1)) "m1.yaml" = true /\
  main_step s1 ("m1.yaml", FLoaded sample_yaml) =
  (fst s1, {| success_count := 1; skip_count := 1; error_count := 0 |}).
Proof.
  cbv zeta. split; [vm_compute; reflexivity|].
  change (main_step (empty_conn, counts0) ("m1.yaml", FLoaded sample_yaml))
    with (fst (main_step (empty_conn, counts0) ("m1.yaml", FLoaded sample_yaml)),
          {| success_count := 1; skip_count := 0; error_count := 0 |}).
  eapply reingest_is_skipped; [exact eq_refl | vm_compute; reflexivity].
Defined.

(** C6 (code_bug): an empty document and a document [yaml.safe_load]
    rejects are counted in [skip_count], which the summary reports as
    "Skipped (already exists)", and not in [error_count]; the connection is
    left as it was and the loop goes on. *)
Theorem malformed_source_counted_as_skipped : forall c n fname,
  main_step (c, n) (fname, FLoaded PNone) =
    (c, {| success_count := success_count n; skip_count := S (skip_count n);
           error_count := error_count n |}) /\
  main_step (c, n) (fname, FYamlError) =
    (c, {| success_count := success_count n; skip_count := S (skip_count n);
           error_count := error_count n |}).
Proof. intros c n fname. split; reflexivity. Qed.

(** C7: an innings entry listing no deliveries yields an innings record
    with total runs, wickets and extras 0 and overs "0.0" (the string given
    to [float()]), and no delivery record. *)
Theorem innings_without_deliveries : forall mid teams idx e r ds,
  extract_innings mid teams idx e = Some (r, ds) ->
  entry_deliveries e = Some [] ->
  ds = [] /\ inn_total_runs r = 0 /\ inn_total_wickets r = 0 /\
  inn_total_extras r = 0 /\ inn_total_overs r = "0.0".
Proof.
  intros mid teams idx e r ds H Hnone.
  destruct (extract_innings_spec _ _ _ _ _ _ H)
    as (key & info & tl & entries & a & _ & _ & _ & _ & Hent & Hfold & Hds & Hr & Hw & Hx & Ho).
  rewrite Hnone in Hent. injection Hent as <-.
  cbn [fold_opt] in Hfold. injection Hfold as <-.
  rewrite Hds, Hr, Hw, Hx, Ho. repeat split.
Qed.

Lemma innings_without_deliveries_witness :
  entry_deliveries (PDict [("Super Over", PDict [("team", PStr "CSK")])]) = Some [] /\
  (exists r, extract_innings 1 sample_teams 1 (PDict [("Super Over", PDict [("team", PStr "CSK")])])
             = Some (r, []) /\ inn_total_overs r = "0.0").
Proof.
  split; [reflexivity|].
  eexists. split; [reflexivity|].
  refine (proj2 (proj2 (proj2 (proj2
    (innings_without_deliveries 1 sample_teams 1
       (PDict [("Super Over", PDict [("team", PStr "CSK")])]) _ [] _ _))))); reflexivity.
Defined.

(** C8 (as stated): the overs value is not the final label verbatim: it is
    rebuilt from the parsed over and ball, so a final label "7" (ball
    defaulting to 1) gives "7.1". *)
Lemma overs_rebuilt_from_parsed_label :
  match extract_innings 1 sample_teams 0 label_without_ball_entry with
  | Some (r, _) => inn_total_overs r = "7.1" /\ inn_total_overs r <> "7"
  | None => False
  end.
Proof. vm_compute. split; [reflexivity | discriminate]. Qed.

(** C8 (amended): for an innings with at least one delivery, the overs
    value is "<over>.<ball>" written from the over and ball parsed from the
    final delivery's label (then converted by [float()]); total runs is
    the sum of the delivery records' total runs, the wicket count is the
    number of delivery records with a wicket, and total extras is the sum
    of their extras runs. *)
Theorem innings_totals : forall mid teams idx e r ds es,
  extract_innings mid teams idx e = Some (r, ds) ->
  entry_deliveries e = Some es -> es <> [] ->
  (exists key v o b,
      first_item (last es PNone) = Some (key, v) /\
      parse_over_ball key = Some (o, b) /\
      inn_total_overs r = py_str_int o ++ "." ++ py_str_int b) /\
  sum_from 0 (map runs_total ds) = Some (inn_total_runs r) /\
  inn_total_wickets r = Z.of_nat (length (filter is_wicket ds)) /\
  sum_from 0 (map runs_extras ds) = Some (inn_total_extras r).
Proof.
  intros mid teams idx e r ds es H Hes Hne.
  destruct (extract_innings_spec _ _ _ _ _ _ H)
    as (key & info & tl & entries & a & _ & _ & _ & _ & Hent & Hfold & Hds & Hr & Hw & Hx & Ho).
  rewrite Hes in Hent. injection Hent as <-.
  destruct (fold_deliveries_spec _ _ _ _ _ _ _ Hfold)
    as (new & Hnew & Hr' & Hx' & Hw' & _ & Hlast & _).
  cbn [acc0 deliveries_data total_runs total_extras total_wickets app] in *.
  rewrite Hds, Hnew. split; [|split; [|split]].
  - destruct (Hlast Hne) as (k & v & Hk & Hp).
    exists k, v, (last_over a), (last_ball a). repeat split; assumption.
  - rewrite Hr. exact Hr'.
  - rewrite Hw, Hw'. reflexivity.
  - rewrite Hx. exact Hx'.
Qed.

Lemma innings_totals_witness :
  exists r ds,
    extract_innings 1 sample_teams 0
      single_four_entry
    = Some (r, ds) /\
    sum_from 0 (map runs_total ds) = Some (inn_total_runs r).
Proof.
  do 2 eexists. split; [reflexivity|].
  refine (proj1 (proj2 (innings_totals 1 sample_teams 0 single_four_entry _ _
    [PDict [("0.1", PDict [("runs", PDict [("batsman", PInt 4); ("total", PInt 4)])])]]
    eq_refl eq_refl _))).
  discriminate.
Defined.

(** C10: for a delivery whose run breakdown holds integers (or omits them)
    under "batsman" and "batter", the striker's runs are the "batsman"
    value when it is non-zero, else the "batter" value (0 when both are 0
    or absent); so a recorded "batsman": 0 gives way to a non-zero
    "batter". *)
Theorem striker_runs_first_nonzero : forall mid inn bat bowl a e a' key delivery rs x y,
  first_item e = Some (key, delivery) ->
  dict_get delivery "runs" (PDict []) = Some (PDict rs) ->
  dict_get (PDict rs) "batsman" (PInt 0) = Some (PInt x) ->
  dict_get (PDict rs) "batter" (PInt 0) = Some (PInt y) ->
  extract_delivery mid inn bat bowl a e = Some a' ->
  exists d, deliveries_data a' = (deliveries_data a ++ [d])%list /\
            runs_batter d = PInt (if x =? 0 then y else x).
Proof.
  intros mid inn bat bowl a e a' key delivery rs x y Hfi Hruns Hx Hy H.
  unfold extract_delivery in H. rewrite Hfi in H. cbn [obind] in H.
  rewrite Hruns in H. cbn [obind] in H.
  unfold get_or at 1 in H. rewrite Hx in H. cbn [obind truthy] in H.
  destruct (Z.eqb_spec x 0) as [Hx0|Hx0].
  - subst x. cbn [Z.eqb negb] in H. rewrite Hy in H. cbn [obind] in H.
    unbind H. injection H as <-.
    eexists. split; [reflexivity|]. cbn [runs_batter].
    unfold py_or. cbn [truthy]. destruct (Z.eqb_spec y 0); [subst|]; reflexivity.
  - cbn [negb obind] in H. unbind H. injection H as <-.
    eexists. split; [reflexivity|]. cbn [runs_batter].
    unfold py_or. cbn [truthy]. apply Z.eqb_neq in Hx0. rewrite Hx0. reflexivity.
Qed.

Lemma striker_runs_first_nonzero_witness :
  exists a',
    extract_delivery 1 1 (PStr "MI") (PStr "CSK") acc0
      (PDict [("3.2", PDict [("runs", PDict [("batsman", PInt 0); ("batter", PInt 2); ("total", PInt 2)])])])
    = Some a' /\
    exists d, deliveries_data a' = [d] /\ runs_batter d = PInt 2.
Proof.
  eexists. split; [reflexivity|].
  exact (striker_runs_first_nonzero 1 1 (PStr "MI") (PStr "CSK") acc0
    (PDict [("3.2", PDict [("runs", PDict [("batsman", PInt 0); ("batter", PInt 2); ("total", PInt 2)])])])
    _ "3.2" (PDict [("runs", PDict [("batsman", PInt 0); ("batter", PInt 2); ("total", PInt 2)])])
    [("batsman", PInt 0); ("batter", PInt 2); ("total", PInt 2)] 0 2
    eq_refl eq_refl eq_refl eq_refl eq_refl).
Defined.

(** ** Further properties of the script *)

Lemma py_eqb_refl : forall v, py_eqb v v = true.
Proof.
  fix IH 1. intros v. destruct v as [| b | z | s | y m d | l | d]; cbn.
  - reflexivity.
  - destruct b; reflexivity.
  - apply Z.eqb_refl.
  - apply String.eqb_refl.
  - rewrite !Z.eqb_refl. reflexivity.
  - revert l. fix IHl 1. intros [|x l]; [reflexivity|].
    rewrite (IH x). exact (IHl l).
  - revert d. fix IHd 1. intros [|[k x] d]; [reflexivity|].
    rewrite String.eqb_refl, (IH x). exact (IHd d).
Qed.

Lemma fold_opt_fail : forall {A B} (f : A -> B -> option A) x l a,
  (forall a', f a' x = None) -> In x l -> fold_opt f l a = None.
Proof.
  intros A B f x l. induction l as [|y l IH]; intros a Hx Hin; [destruct Hin|].
  cbn [fold_opt]. destruct Hin as [<-|Hin].
  - rewrite Hx. reflexivity.
  - destruct (f a y); cbn [obind]; [apply IH; assumption | reflexivity].
Qed.

Lemma extract_delivery_fields : forall mid inn bat bowl a e a',
  extract_delivery mid inn bat bowl a e = Some a' ->
  exists key v d,
    first_item e = Some (key, v) /\
    deliveries_data a' = (deliveries_data a ++ [d])%list /\
    parse_over_ball key = Some (over_number d, ball_number d) /\
    phase d = get_phase (over_number d) /\
    match_id d = mid /\ innings_number d = inn /\
    batting_team d = bat /\ bowling_team d = bowl.
Proof.
  intros mid inn bat bowl a e a' H.
  unfold extract_delivery in H. unbind H. injection H as <-.
  do 3 eexists. split; [reflexivity|]. split; [reflexivity|].
  split; [exact E0|]. cbn. repeat split.
Qed.

Lemma fold_deliveries_fields : forall mid inn bat bowl es a a',
  fold_opt (extract_delivery mid inn bat bowl) es a = Some a' ->
  exists new,
    deliveries_data a' = (deliveries_data a ++ new)%list /\
    Forall2 (fun x d => exists k v,
       first_item x = Some (k, v) /\
       parse_over_ball k = Some (over_number d, ball_number d) /\
       phase d = get_phase (over_number d) /\
       match_id d = mid /\ innings_number d = inn /\
       batting_team d = bat /\ bowling_team d = bowl) es new.
Proof.
  intros mid inn bat bowl es. induction es as [|x es IH]; intros a a' H.
  - injection H as <-. exists []. rewrite app_nil_r. split; [reflexivity | constructor].
  - cbn [fold_opt] in H. unbind H.
    destruct (extract_delivery_fields _ _ _ _ _ _ _ E)
      as (k & v & d & Hfi & Hdd & Hp & Hph & Hm & Hi & Hb & Hw).
    destruct (IH _ _ H) as (new & Hnew & Hall).
    exists (d :: new). split.
    + rewrite Hnew, Hdd, <- app_assoc. reflexivity.
    + constructor; [|exact Hall]. exists k, v. repeat split; assumption.
Qed.

Lemma extract_innings_ids : forall mid teams idx e r ds,
  extract_innings mid teams idx e = Some (r, ds) ->
  inn_match_id r = mid /\ inn_innings_number r = Z.of_nat idx + 1.
Proof.
  intros mid teams idx e r ds H. unfold extract_innings in H. unbind H.
  injection H as <- <-. split; reflexivity.
Qed.

Lemma extract_innings_deliveries_linked : forall mid teams idx e r ds,
  extract_innings mid teams idx e = Some (r, ds) ->
  exists es, entry_deliveries e = Some es /\
  Forall2 (fun x d => exists k v,
     first_item x = Some (k, v) /\
     parse_over_ball k = Some (over_number d, ball_number d) /\
     phase d = get_phase (over_number d) /\
     match_id d = mid /\ innings_number d = inn_innings_number r /\
     batting_team d = inn_batting_team r /\ bowling_team d = inn_bowling_team r) es ds.
Proof.
  intros mid teams idx e r ds H.
  destruct (extract_innings_spec _ _ _ _ _ _ H)
    as (key & info & tl & entries & a & _ & _ & _ & _ & Hent & Hfold & Hds & _).
  exists entries. split; [exact Hent|].
  destruct (fold_deliveries_fields _ _ _ _ _ _ _ Hfold) as (new & Hnew & Hall).
  rewrite Hds, Hnew. exact Hall.
Qed.

Lemma innings_loop_structure : forall mid teams es idx rs dss,
  innings_loop mid teams idx es = Some (rs, dss) ->
  map inn_innings_number rs = map (fun i => Z.of_nat i + 1) (seq idx (length es)) /\
  Forall (fun r => inn_match_id r = mid) rs /\
  Forall (fun d => exists r, In r rs /\ match_id d = mid /\
            innings_number d = inn_innings_number r /\
            batting_team d = inn_batting_team r /\
            bowling_team d = inn_bowling_team r) dss.
Proof.
  intros mid teams es. induction es as [|e es IH]; intros idx rs dss H.
  - injection H as <- <-. repeat split; constructor.
  - cbn [innings_loop] in H. unbind H. injection H as <- <-.
    destruct (extract_innings_ids _ _ _ _ _ _ E) as [Hm Hn].
    destruct (extract_innings_deliveries_linked _ _ _ _ _ _ E) as (es' & _ & Hl).
    destruct (IH _ _ _ E0) as (Hnums & Hms & Hds).
    split; [|split].
    + cbn [map seq length]. rewrite Hn, Hnums. reflexivity.
    + constructor; assumption.
    + apply Forall_app. split.
      * clear -Hl. induction Hl as [|x d xs ds0 (k & v & _ & _ & _ & Hm & Hi & Hb & Hw) _ IHl];
          constructor; [|exact IHl].
        exists i. split; [left; reflexivity | repeat split; assumption].
      * refine (Forall_impl _ _ Hds). intros d (r' & Hin & Hrest).
        exists r'. split; [right; exact Hin | exact Hrest].
Qed.

Lemma innings_loop_fail : forall mid teams e es idx,
  (forall i, extract_innings mid teams i e = None) -> In e es ->
  innings_loop mid teams idx es = None.
Proof.
  intros mid teams e es. induction es as [|e' es IH]; intros idx He Hin; [destruct Hin|].
  cbn [innings_loop]. destruct Hin as [<-|Hin].
  - rewrite He. reflexivity.
  - destruct (extract_innings mid teams idx e') as [[r ds]|]; cbn [obind]; [|reflexivity].
    rewrite (IH (S idx) He Hin). reflexivity.
Qed.

Lemma bad_label_innings_fails : forall mid teams idx e es x k v,
  entry_deliveries e = Some es -> In x es ->
  first_item x = Some (k, v) -> parse_over_ball k = None ->
  extract_innings mid teams idx e = None.
Proof.
  intros mid teams idx e es x k v Hent Hin Hfi Hp.
  unfold entry_deliveries in Hent. unfold extract_innings.
  destruct (first_item e) as [[key info]|]; cbn [obind] in *; [|discriminate Hent].
  destruct (dict_get info "team" PNone); cbn [obind]; [|reflexivity].
  destruct (py_iter teams); cbn [obind]; [|reflexivity].
  destruct (dict_get info "deliveries" (PList [])); cbn [obind] in *; [|discriminate Hent].
  rewrite Hent. cbn [obind].
  rewrite (fold_opt_fail _ x); [reflexivity| |exact Hin].
  intros a'. unfold extract_delivery. rewrite Hfi. cbn [obind]. rewrite Hp. reflexivity.
Qed.

(** [safe_get] returns None only when the caller's default is None. *)
Theorem safe_get_none_only_for_none_default : forall data keys default,
  safe_get data keys default = PNone -> default = PNone.
Proof.
  intros data keys default H. unfold safe_get in H.
  destruct (safe_get_loop data keys default) as [[]|]; congruence.
Qed.

Lemma safe_get_none_only_for_none_default_witness :
  safe_get (PDict [("toss", PDict [])]) ["toss"; "winner"] PNone = PNone /\ PNone = PNone.
Proof.
  split; [reflexivity|].
  exact (safe_get_none_only_for_none_default (PDict [("toss", PDict [])]) ["toss"; "winner"] PNone eq_refl).
Defined.

(** [parse_over_ball] reads only the first two dot-separated parts of a
    label: "<int>.<int>.<anything>" parses like "<int>.<int>". *)
Theorem parse_over_ball_ignores_extra_parts : forall s1 s2 s3 a b,
  py_int s1 = Some a -> py_int s2 = Some b ->
  parse_over_ball (s1 ++ "." ++ s2 ++ "." ++ s3) = Some (a, b).
Proof.
  intros s1 s2 s3 a b H1 H2. unfold parse_over_ball. cbn [append].
  rewrite (split_on_app _ _ _ (py_int_nodot _ _ H1)).
  rewrite (split_on_app _ _ _ (py_int_nodot _ _ H2)).
  cbn [hd length nth Nat.ltb Nat.leb]. rewrite H1. cbn [obind]. rewrite H2. reflexivity.
Qed.

Lemma parse_over_ball_ignores_extra_parts_witness :
  py_int "1" = Some 1 /\ py_int "2" = Some 2 /\
  parse_over_ball ("1" ++ "." ++ "2" ++ "." ++ "3") = Some (1, 2).
Proof.
  split; [reflexivity|]. split; [reflexivity|].
  exact (parse_over_ball_ignores_extra_parts "1" "2" "3" 1 2 eq_refl eq_refl).
Defined.

(** Innings records are numbered 1, 2, ..., n in the order of the innings
    entries, one per entry, all with the given match id; every delivery
    record carries the match id and the number and batting and bowling
    teams of one of these innings records. *)
Theorem innings_numbering_and_links : forall y mid teams inns dels,
  extract_innings_and_deliveries y mid teams = Some (inns, dels) ->
  exists entries,
    obind (dict_get y "innings" (PList [])) py_iter = Some entries /\
    map inn_innings_number inns = map (fun i => Z.of_nat i + 1) (seq 0 (length entries)) /\
    Forall (fun r => inn_match_id r = mid) inns /\
    Forall (fun d => exists r, In r inns /\ match_id d = mid /\
              innings_number d = inn_innings_number r /\
              batting_team d = inn_batting_team r /\
              bowling_team d = inn_bowling_team r) dels.
Proof.
  intros y mid teams inns dels H.
  unfold extract_innings_and_deliveries in H.
  destruct (dict_get y "innings" (PList [])) as [il|]; cbn [obind] in *; [|discriminate H].
  destruct (py_iter il) as [entries|]; cbn [obind] in *; [|discriminate H].
  exists entries. split; [reflexivity|].
  exact (innings_loop_structure _ _ _ _ _ _ H).
Qed.

Lemma innings_numbering_and_links_witness :
  exists inns dels,
    extract_innings_and_deliveries sample_yaml 1 sample_teams = Some (inns, dels) /\
    map inn_innings_number inns = [1; 2].
Proof.
  do 2 eexists. split; [reflexivity|].
  destruct (innings_numbering_and_links sample_yaml 1 sample_teams _ _ eq_refl)
    as (entries & Hent & Hnums & _).
  rewrite Hnums. vm_compute in Hent. injection Hent as <-. reflexivity.
Defined.

(** The delivery records of an innings follow its delivery entries one to
    one and in order: each has the over and ball parsed from its entry's
    label (not renumbered), the phase of that over, and the match id,
    innings number and teams of the innings record. *)
Theorem deliveries_follow_entries : forall mid teams idx e r ds,
  extract_innings mid teams idx e = Some (r, ds) ->
  exists es, entry_deliveries e = Some es /\
  Forall2 (fun x d => exists k v,
     first_item x = Some (k, v) /\
     parse_over_ball k = Some (over_number d, ball_number d) /\
     phase d = get_phase (over_number d) /\
     match_id d = mid /\ innings_number d = inn_innings_number r /\
     batting_team d = inn_batting_team r /\ bowling_team d = inn_bowling_team r) es ds.
Proof.
  intros mid teams idx e r ds H.
  destruct (extract_innings_spec _ _ _ _ _ _ H)
    as (key & info & tl & entries & a & _ & _ & _ & _ & Hent & Hfold & Hds & _).
  exists entries. split; [exact Hent|].
  destruct (fold_deliveries_fields _ _ _ _ _ _ _ Hfold) as (new & Hnew & Hall).
  rewrite Hds, Hnew. exact Hall.
Qed.

Lemma deliveries_follow_entries_witness :
  exists r ds, extract_innings 1 sample_teams 0 single_four_entry = Some (r, ds) /\
  exists es, entry_deliveries single_four_entry = Some es /\ length es = length ds.
Proof.
  do 2 eexists. split; [reflexivity|].
  destruct (deliveries_follow_entries 1 sample_teams 0 single_four_entry _ _ eq_refl)
    as (es & Hes & Hall).
  exists es. split; [exact Hes | exact (Forall2_length Hall)].
Defined.

(** A wicket section given as a list is read through its first entry only:
    the later entries of the list are ignored. *)
Theorem wicket_list_first_entry : forall kv w ws,
  extract_wicket (PList (PDict (kv :: w) :: ws)) = extract_wicket (PDict (kv :: w)).
Proof. intros kv w ws. reflexivity. Qed.

(** A delivery label that [parse_over_ball] rejects, anywhere in the
    record, makes the whole innings and delivery extraction fail. *)
Theorem bad_label_fails_extraction : forall y mid teams il entries e es x k v,
  dict_get y "innings" (PList []) = Some il -> py_iter il = Some entries -> In e entries ->
  entry_deliveries e = Some es -> In x es ->
  first_item x = Some (k, v) -> parse_over_ball k = None ->
  extract_innings_and_deliveries y mid teams = None.
Proof.
  intros y mid teams il entries e es x k v Hil Hent Hin Hes Hx Hfi Hp.
  unfold extract_innings_and_deliveries. rewrite Hil. cbn [obind]. rewrite Hent. cbn [obind].
  apply (innings_loop_fail _ _ e); [|exact Hin].
  intros i. exact (bad_label_innings_fails _ _ _ _ _ _ _ _ Hes Hx Hfi Hp).
Qed.

Lemma bad_label_fails_extraction_witness :
  In bad_label_entry [bad_label_entry] /\
  extract_innings_and_deliveries bad_label_yaml 1 sample_teams = None.
Proof.
  split; [left; reflexivity|].
  apply (bad_label_fails_extraction bad_label_yaml 1 sample_teams
           (PList [bad_label_entry]) [bad_label_entry] bad_label_entry
           [PDict [("0.1", PDict [("runs", PDict [("total", PInt 0)])])];
            PDict [("x.2", PDict [("runs", PDict [("total", PInt 0)])])]]
           (PDict [("x.2", PDict [("runs", PDict [("total", PInt 0)])])])
           "x.2" (PDict [("runs", PDict [("total", PInt 0)])]));
    try reflexivity.
  - left; reflexivity.
  - right; left; reflexivity.
Defined.

Lemma insert_match_cases : forall c md,
  (insert_match c md = (None, c) /\ match_exists (current c) (source_file md) = true) \/
  (match_exists (current c) (source_file md) = false /\
  exists c1, insert_match c md = (Some (match_seq c + 1), c1) /\
  committed c1 = committed c /\ match_seq c1 = match_seq c + 1 /\
  current c1 = {| matches := (matches (current c) ++ [(match_seq c + 1, md)])%list;
                   players := players (current c); innings := innings (current c);
                   ball_by_ball := ball_by_ball (current c) |}).
Proof.
  intros c md. unfold insert_match.
  destruct (match_exists (current c) (source_file md)).
  - left. split; reflexivity.
  - right. split; [reflexivity|]. eexists. split; [reflexivity|]. repeat split.
Qed.

Lemma process_shape : forall c f fc,
  committed (snd (process_yaml_file c f fc)) = committed c /\
  (fst (process_yaml_file c f fc) = NotIngested -> snd (process_yaml_file c f fc) = c) /\
  exists l, matches (current (snd (process_yaml_file c f fc))) = (matches (current c) ++ l)%list.
Proof.
  intros c f fc.
  assert (Hsame : forall o : outcome, committed c = committed c /\ (o = NotIngested -> c = c) /\
                  exists l, matches (current c) = (matches (current c) ++ l)%list)
    by (intros; split; [reflexivity|]; split; [intros; reflexivity|];
        exists []; rewrite app_nil_r; reflexivity).
  unfold process_yaml_file.
  destruct fc as [| |y]; cbn [fst snd]; [apply Hsame | apply Hsame|].
  destruct (negb (truthy y)); cbn [fst snd]; [apply Hsame|].
  destruct (extract_match_data y f) as [md|]; cbn [fst snd]; [|apply Hsame].
  destruct (insert_match_cases c md) as [[-> _] | [_ (c1 & -> & Hc & Hs & Hcur)]];
    cbn [fst snd]; [apply Hsame|].
  destruct (extract_players y) as [ps|]; cbn [fst snd].
  - destruct (extract_innings_and_deliveries y (match_seq c + 1) _) as [[rs ds]|];
      cbn [fst snd]; (split; [exact Hc|]); (split; [discriminate|]);
      exists [(match_seq c + 1, md)];
      unfold insert_deliveries, insert_innings, insert_players, set_current;
      cbn [current matches]; rewrite Hcur; reflexivity.
  - split; [exact Hc|]. split; [discriminate|].
    exists [(match_seq c + 1, md)]. rewrite Hcur. reflexivity.
Qed.

Lemma process_ingested : forall c f y c',
  process_yaml_file c f (FLoaded y) = (Ingested, c') ->
  exists md ps rs ds,
    extract_match_data y f = Some md /\
    match_exists (current c) (source_file md) = false /\
    extract_players y = Some ps /\
    extract_innings_and_deliveries y (match_seq c + 1)
      (match obind (dict_get y "info" (PDict [])) (fun i => dict_get i "teams" (PList [])) with
       | Some t => t | None => PList [] end) = Some (rs, ds) /\
    committed c' = committed c /\ match_seq c' = match_seq c + 1 /\
    matches (current c') = (matches (current c) ++ [(match_seq c + 1, md)])%list /\
    players (current c') = players (current (insert_players c ps)) /\
    innings (current c') = (innings (current c) ++ rs)%list /\
    ball_by_ball (current c') = (ball_by_ball (current c) ++ ds)%list.
Proof.
  intros c f y c' H. unfold process_yaml_file in H.
  destruct (negb (truthy y)); [discriminate H|].
  destruct (extract_match_data y f) as [md|] eqn:Emd; [|discriminate H].
  destruct (insert_match_cases c md) as [[Ei _] | [Ex (c1 & Ei & Hc & Hs & Hcur)]];
    rewrite Ei in H; [discriminate H|].
  destruct (extract_players y) as [ps|] eqn:Eps; [|discriminate H].
  match type of H with
  | context [extract_innings_and_deliveries ?a ?b ?t] =>
      destruct (extract_innings_and_deliveries a b t) as [[rs ds]|] eqn:Eid; [|discriminate H]
  end.
  injection H as <-.
  exists md, ps, rs, ds.
  unfold insert_deliveries, insert_innings, insert_players, set_current.
  cbn [current committed match_seq matches players innings ball_by_ball].
  rewrite Hcur. cbn [matches players innings ball_by_ball].
  repeat split; assumption.
Qed.

Lemma process_ingested_one : forall c f fc c',
  process_yaml_file c f fc = (Ingested, c') ->
  committed c' = committed c /\ match_seq c' = match_seq c + 1 /\
  exists md, matches (current c') = (matches (current c) ++ [(match_seq c + 1, md)])%list.
Proof.
  intros c f fc c' H. destruct fc as [| |y]; [discriminate H | discriminate H |].
  destruct (process_ingested _ _ _ _ H)
    as (md & ps & rs & ds & _ & _ & _ & _ & Hc & Hs & Hm & _).
  split; [exact Hc|]. split; [exact Hs|]. exists md. exact Hm.
Qed.

Lemma process_seq_mono : forall c f fc,
  match_seq c <= match_seq (snd (process_yaml_file c f fc)).
Proof.
  intros c f fc.
  destruct (process_yaml_file c f fc) as [o c1] eqn:E. cbn [snd].
  destruct o.
  - destruct (process_ingested_one _ _ _ _ E) as (_ & Hs & _). lia.
  - pose proof (process_shape c f fc) as (_ & Hn & _). rewrite E in Hn.
    cbn [fst snd] in Hn. rewrite (Hn eq_refl). lia.
  - unfold process_yaml_file in E.
    destruct fc as [| |y]; [injection E as <-; lia | discriminate E |].
    destruct (negb (truthy y)); [discriminate E|].
    destruct (extract_match_data y f) as [md|]; [|injection E as <-; lia].
    destruct (insert_match_cases c md) as [[Ei _] | [_ (c2 & Ei & _ & Hs & _)]];
      rewrite Ei in E; [discriminate E|].
    destruct (extract_players y); [|injection E as <-; lia].
    match type of E with
    | context [extract_innings_and_deliveries ?a ?b ?t] =>
        destruct (extract_innings_and_deliveries a b t) as [[rs ds]|]; [discriminate E|]
    end.
    injection E as <-. unfold insert_players, set_current. cbn [match_seq]. lia.
Qed.

Lemma main_step_counts : forall c n f,
  (success_count (snd (main_step (c, n) f)) + skip_count (snd (main_step (c, n) f)) +
   error_count (snd (main_step (c, n) f)) =
   S (success_count n + skip_count n + error_count n))%nat.
Proof.
  intros c n f. unfold main_step.
  destruct (process_yaml_file c (fst f) (snd f)) as [[| |] c1]; cbn [snd success_count skip_count error_count]; lia.
Qed.

Lemma fold_main_counts : forall files s,
  (success_count (snd (fold_left main_step files s)) + skip_count (snd (fold_left main_step files s)) +
   error_count (snd (fold_left main_step files s)) =
   length files + (success_count (snd s) + skip_count (snd s) + error_count (snd s)))%nat.
Proof.
  induction files as [|f fs IH]; intros [c n]; cbn [fold_left length].
  - reflexivity.
  - rewrite IH. destruct (main_step (c, n) f) as [c2 n2] eqn:E.
    pose proof (main_step_counts c n f) as Hc. rewrite E in Hc. cbn [snd] in *. lia.
Qed.

Lemma main_step_clean : forall c n f,
  committed c = current c ->
  committed (fst (main_step (c, n) f)) = current (fst (main_step (c, n) f)) /\
  match_seq c <= match_seq (fst (main_step (c, n) f)) /\
  (exists l, matches (committed (fst (main_step (c, n) f))) = (matches (committed c) ++ l)%list /\
     (length l + success_count n = success_count (snd (main_step (c, n) f)))%nat /\
     Forall (fun r => match_seq c < fst r <= match_seq (fst (main_step (c, n) f))) l).
Proof.
  intros c n [fname fc] Hcl. unfold main_step. cbn [fst snd].
  pose proof (process_shape c fname fc) as (Hc & Hn & _).
  pose proof (process_seq_mono c fname fc) as Hmono.
  destruct (process_yaml_file c fname fc) as [o c1] eqn:E. cbn [fst snd] in *.
  destruct o; cbn [fst snd success_count].
  - destruct (process_ingested_one _ _ _ _ E) as (_ & Hs & md & Hm).
    unfold commit. cbn [committed current match_seq].
    split; [reflexivity|]. split; [exact Hmono|].
    exists [(match_seq c + 1, md)]. rewrite Hm, Hcl.
    split; [reflexivity|]. split; [reflexivity|].
    constructor; [cbn [fst]; lia | constructor].
  - rewrite (Hn eq_refl). split; [exact Hcl|]. split; [lia|].
    exists []. rewrite app_nil_r. split; [reflexivity|]. split; [reflexivity | constructor].
  - unfold rollback. cbn [committed current match_seq].
    split; [reflexivity|]. split; [exact Hmono|].
    exists []. rewrite app_nil_r, Hc. split; [reflexivity|]. split; [reflexivity | constructor].
Qed.

Lemma fold_main_clean : forall files c n,
  committed c = current c ->
  committed (fst (fold_left main_step files (c, n))) = current (fst (fold_left main_step files (c, n))) /\
  match_seq c <= match_seq (fst (fold_left main_step files (c, n))) /\
  (exists l, matches (committed (fst (fold_left main_step files (c, n)))) = (matches (committed c) ++ l)%list /\
     (length l + success_count n = success_count (snd (fold_left main_step files (c, n))))%nat /\
     StronglySorted (fun a b => fst a < fst b) l /\
     Forall (fun r => match_seq c < fst r <= match_seq (fst (fold_left main_step files (c, n)))) l).
Proof.
  induction files as [|f fs IH]; intros c n Hcl; cbn [fold_left fst snd].
  - split; [exact Hcl|]. split; [lia|].
    exists []. rewrite app_nil_r. repeat split; constructor.
  - pose proof (main_step_clean c n f Hcl) as (Hcl2 & Hs2 & l1 & Hl1 & Hn1 & Hf1).
    destruct (main_step (c, n) f) as [c2 n2] eqn:E. cbn [fst snd] in *.
    destruct (IH c2 n2 Hcl2) as (Hcl3 & Hs3 & l2 & Hl2 & Hn2 & Hsort2 & Hf2).
    split; [exact Hcl3|]. split; [lia|].
    exists (l1 ++ l2)%list. rewrite Hl2, Hl1, app_assoc.
    split; [reflexivity|]. split; [rewrite length_app; lia|].
    split.
    + assert (Hsort1 : StronglySorted (fun a b => fst a < fst b) l1).
      { destruct l1 as [|x [|y l1']]; [constructor | repeat constructor |].
        cbn [length] in Hn1. unfold main_step in E.
        destruct (process_yaml_file c (fst f) (snd f)) as [[| |] ?];
          injection E as _ <-; cbn [success_count] in Hn1; lia. }
      clear -Hsort1 Hsort2 Hf1 Hf2 Hs2.
      induction Hsort1 as [|x l1 Hs1 IHs Hx].
      * exact Hsort2.
      * cbn [app]. inversion Hf1 as [|? ? Hx1 Hf1']; subst.
        constructor; [apply IHs; assumption|].
        apply Forall_app. split; [exact Hx|].
        eapply Forall_impl; [|exact Hf2]. cbn beta. intros r Hr. lia.
    + apply Forall_app. split.
      * eapply Forall_impl; [|exact Hf1]. cbn beta. intros r Hr. lia.
      * eapply Forall_impl; [|exact Hf2]. cbn beta. intros r Hr. lia.
Qed.

Lemma player_eqb_refl : forall p, player_eqb p p = true.
Proof.
  intros [v t]. unfold player_eqb. cbn [fst snd].
  rewrite py_eqb_refl, String.eqb_refl. reflexivity.
Qed.

Lemma rows_distinct_snoc : forall tbl p,
  rows_distinct tbl -> existsb (player_eqb p) tbl = false -> rows_distinct (tbl ++ [p])%list.
Proof.
  intros tbl p Hd Hex i j a b Hij Ha Hb.
  destruct (Nat.lt_ge_cases j (length tbl)) as [Hj | Hj].
  - rewrite nth_error_app1 in Ha by lia. rewrite nth_error_app1 in Hb by lia.
    exact (Hd i j a b Hij Ha Hb).
  - rewrite nth_error_app2 in Hb by lia.
    destruct (j - length tbl)%nat as [|k] eqn:Ek.
    + cbn in Hb. injection Hb as <-.
      rewrite nth_error_app1 in Ha by lia.
      apply nth_error_In in Ha.
      destruct (player_eqb p a) eqn:Epa; [|reflexivity].
      assert (Htrue : existsb (player_eqb p) tbl = true)
        by (apply existsb_exists; exists a; split; assumption).
      congruence.
    + destruct k; discriminate Hb.
Qed.

Lemma players_fold : forall ps tbl,
  (exists l, fold_left (fun tbl p => if existsb (player_eqb p) tbl then tbl
                                     else (tbl ++ [p])%list) ps tbl = (tbl ++ l)%list) /\
  (forall p, In p ps ->
     existsb (player_eqb p) (fold_left (fun tbl p => if existsb (player_eqb p) tbl then tbl
                                                     else (tbl ++ [p])%list) ps tbl) = true) /\
  (rows_distinct tbl ->
     rows_distinct (fold_left (fun tbl p => if existsb (player_eqb p) tbl then tbl
                                            else (tbl ++ [p])%list) ps tbl)).
Proof.
  induction ps as [|p ps IH]; intros tbl; cbn [fold_left].
  - split; [exists []; rewrite app_nil_r; reflexivity|].
    split; [intros p []|]. intros H; exact H.
  - destruct (IH (if existsb (player_eqb p) tbl then tbl else (tbl ++ [p])%list))
      as ((l & Hl) & Hin & Hd).
    assert (Hp : existsb (player_eqb p)
                   (if existsb (player_eqb p) tbl then tbl else (tbl ++ [p])%list) = true).
    { destruct (existsb (player_eqb p) tbl) eqn:E; [exact E|].
      rewrite existsb_app. cbn [existsb]. rewrite player_eqb_refl, orb_true_r. reflexivity. }
    split.
    + rewrite Hl. destruct (existsb (player_eqb p) tbl).
      * exists l. reflexivity.
      * exists (p :: l). rewrite <- app_assoc. reflexivity.
    + split.
      * intros q [<- | Hq]; [|exact (Hin q Hq)].
        rewrite Hl, existsb_app, Hp. reflexivity.
      * intros Hd0. apply Hd.
        destruct (existsb (player_eqb p) tbl) eqn:E; [exact Hd0|].
        exact (rows_distinct_snoc tbl p Hd0 E).
Qed.

Lemma sorted_app : forall (A : Type) (R : A -> A -> Prop) l1 l2,
  StronglySorted R l1 -> StronglySorted R l2 ->
  (forall x y, In x l1 -> In y l2 -> R x y) -> StronglySorted R (l1 ++ l2)%list.
Proof.
  intros A R l1 l2 H1 H2 H12. induction H1 as [|x l1 Hs IH Hx]; [exact H2|].
  cbn [app]. constructor.
  - apply IH. intros a b Ha Hb. apply H12; [right|]; assumption.
  - apply Forall_app. split; [exact Hx|].
    apply Forall_forall. intros y Hy. apply H12; [left; reflexivity | exact Hy].
Qed.

(** ** Further properties of the loader *)

(** Every file of a run is counted exactly once: the success, skip and
    error counters add up to the number of files. *)
Theorem ingest_counts_total : forall c files,
  (success_count (snd (ingest_files c files)) + skip_count (snd (ingest_files c files)) +
   error_count (snd (ingest_files c files)) = length files)%nat.
Proof.
  intros c files. unfold ingest_files. rewrite fold_main_counts. cbn. lia.
Qed.

(** From a connection with nothing pending, a run leaves nothing pending
    (each file is committed or rolled back), never removes or reorders a
    committed match row, and adds exactly one match row per file counted
    as a success. *)
Theorem ingest_commits_one_match_per_success : forall c files,
  committed c = current c ->
  committed (fst (ingest_files c files)) = current (fst (ingest_files c files)) /\
  exists l, matches (committed (fst (ingest_files c files))) = (matches (committed c) ++ l)%list /\
    length l = success_count (snd (ingest_files c files)).
Proof.
  intros c files Hcl. unfold ingest_files.
  destruct (fold_main_clean files c counts0 Hcl) as (Hcl' & _ & l & Hl & Hn & _).
  split; [exact Hcl'|]. exists l. split; [exact Hl|]. cbn [success_count counts0] in Hn. lia.
Qed.

Lemma ingest_commits_one_match_per_success_witness :
  committed empty_conn = current empty_conn /\
  exists l, matches (committed (fst (ingest_files empty_conn sample_files))) =
              (matches (committed empty_conn) ++ l)%list /\
    length l = success_count (snd (ingest_files empty_conn sample_files)).
Proof.
  split; [reflexivity|].
  exact (proj2 (ingest_commits_one_match_per_success empty_conn sample_files eq_refl)).
Defined.

(** Committed match ids stay strictly increasing and never exceed the
    sequence: each new match takes the next value, and a value taken by a
    file that was rolled back is not reused. *)
Theorem committed_match_ids_increasing : forall c files,
  committed c = current c ->
  StronglySorted (fun a b => fst a < fst b) (matches (committed c)) ->
  Forall (fun r => fst r <= match_seq c) (matches (committed c)) ->
  StronglySorted (fun a b => fst a < fst b) (matches (committed (fst (ingest_files c files)))) /\
  Forall (fun r => fst r <= match_seq (fst (ingest_files c files)))
         (matches (committed (fst (ingest_files c files)))).
Proof.
  intros c files Hcl Hsort Hle. unfold ingest_files.
  destruct (fold_main_clean files c counts0 Hcl) as (_ & Hs & l & Hl & _ & Hsl & Hfl).
  rewrite Hl. split.
  - apply sorted_app; [exact Hsort | exact Hsl|].
    intros x y Hx Hy.
    rewrite Forall_forall in Hle, Hfl.
    specialize (Hle x Hx). specialize (Hfl y Hy). lia.
  - apply Forall_app. split; [|exact (Forall_impl _ (fun r Hr => proj2 Hr) Hfl)].
    eapply Forall_impl; [|exact Hle]. cbn beta. intros r Hr. lia.
Qed.

Lemma committed_match_ids_increasing_witness :
  committed empty_conn = current empty_conn /\
  StronglySorted (fun a b => fst a < fst b) (matches (committed empty_conn)) /\
  Forall (fun r => fst r <= match_seq empty_conn) (matches (committed empty_conn)) /\
  StronglySorted (fun a b => fst a < fst b)
    (matches (committed (fst (ingest_files empty_conn sample_files)))).
Proof.
  assert (H1 : committed empty_conn = current empty_conn) by reflexivity.
  assert (H2 : StronglySorted (fun a b : Z * match_rec => fst a < fst b)
                 (matches (committed empty_conn))) by constructor.
  assert (H3 : Forall (fun r : Z * match_rec => fst r <= match_seq empty_conn)
                 (matches (committed empty_conn))) by constructor.
  split; [exact H1|]. split; [exact H2|]. split; [exact H3|].
  exact (proj1 (committed_match_ids_increasing empty_conn sample_files H1 H2 H3)).
Defined.

(** A file whose processing raises leaves no trace: the error branch of
    [main] rolls the transaction back to the last commit, so the match row
    and any player rows it had inserted are discarded, and only the error
    counter moves. *)
Theorem failed_file_rolled_back : forall c n f,
  fst (process_yaml_file c (fst f) (snd f)) = Raised ->
  committed (fst (main_step (c, n) f)) = committed c /\
  current (fst (main_step (c, n) f)) = committed c /\
  snd (main_step (c, n) f) =
    {| success_count := success_count n; skip_count := skip_count n;
       error_count := S (error_count n) |}.
Proof.
  intros c n f H. unfold main_step.
  pose proof (process_shape c (fst f) (snd f)) as (Hc & _ & _).
  destruct (process_yaml_file c (fst f) (snd f)) as [o c1]. cbn [fst snd] in *.
  subst o. unfold rollback. cbn [fst snd committed current].
  rewrite Hc. split; [reflexivity|]. split; reflexivity.
Qed.

Lemma failed_file_rolled_back_witness :
  fst (process_yaml_file empty_conn "bad.yaml" (FLoaded bad_label_yaml)) = Raised /\
  matches (current (snd (process_yaml_file empty_conn "bad.yaml" (FLoaded bad_label_yaml)))) <> [] /\
  current (fst (main_step (empty_conn, counts0) ("bad.yaml", FLoaded bad_label_yaml))) =
    committed empty_conn.
Proof.
  assert (H : fst (process_yaml_file empty_conn (fst ("bad.yaml", FLoaded bad_label_yaml))
                     (snd ("bad.yaml", FLoaded bad_label_yaml))) = Raised)
    by (vm_compute; reflexivity).
  split; [exact H|]. split; [vm_compute; discriminate|].
  exact (proj1 (proj2 (failed_file_rolled_back empty_conn counts0 _ H))).
Defined.

(** What a successfully ingested file writes, inside the transaction that
    [main] then commits: one match row [(match_seq c + 1, md)] whose
    [source_file] is the file name, the file's player rows through
    [insert_players], and exactly the innings and delivery records
    extracted with that match id, appended after the existing rows. *)
Theorem ingested_file_rows : forall c f y c',
  process_yaml_file c f (FLoaded y) = (Ingested, c') ->
  exists md ps rs ds,
    extract_match_data y f = Some md /\ source_file md = f /\
    match_exists (current c) f = false /\
    extract_players y = Some ps /\
    extract_innings_and_deliveries y (match_seq c + 1)
      (match obind (dict_get y "info" (PDict [])) (fun i => dict_get i "teams" (PList [])) with
       | Some t => t | None => PList [] end) = Some (rs, ds) /\
    committed c' = committed c /\ match_seq c' = match_seq c + 1 /\
    matches (current c') = (matches (current c) ++ [(match_seq c + 1, md)])%list /\
    players (current c') = players (current (insert_players c ps)) /\
    innings (current c') = (innings (current c) ++ rs)%list /\
    ball_by_ball (current c') = (ball_by_ball (current c) ++ ds)%list.
Proof.
  intros c f y c' H.
  destruct (process_ingested _ _ _ _ H)
    as (md & ps & rs & ds & Emd & Ex & Eps & Eid & Hc & Hs & Hm & Hp & Hi & Hb).
  pose proof (extract_match_data_source_file _ _ _ Emd) as Hsf.
  exists md, ps, rs, ds. rewrite Hsf in Ex.
  repeat split; assumption.
Qed.

Lemma ingested_file_rows_witness :
  exists c', process_yaml_file empty_conn "m1.yaml" (FLoaded sample_yaml) = (Ingested, c') /\
  exists md (ps : list (pyval * string)) rs ds, extract_match_data sample_yaml "m1.yaml" = Some md /\
    matches (current c') = [(1, md)] /\ length ps = 2%nat /\
    innings (current c') = rs /\ ball_by_ball (current c') = ds.
Proof.
  eexists. split; [vm_compute; reflexivity|].
  destruct (ingested_file_rows empty_conn "m1.yaml" sample_yaml _ eq_refl)
    as (md & ps & rs & ds & Emd & _ & _ & Eps & _ & _ & _ & Hm & _ & Hi & Hb).
  exists md, ps, rs, ds. split; [exact Emd|]. split; [exact Hm|].
  split; [vm_compute in Eps; injection Eps as <-; reflexivity|].
  split; [exact Hi | exact Hb].
Defined.

(** [insert_players] with [ON CONFLICT DO NOTHING]: the table only grows
    at its end, every (name, team) pair of the file is present afterwards,
    and a table without repeated rows keeps none, even when the file lists
    a pair twice. *)
Theorem insert_players_no_duplicates : forall c ps,
  rows_distinct (players (current c)) ->
  (exists l, players (current (insert_players c ps)) = (players (current c) ++ l)%list) /\
  (forall p, In p ps -> existsb (player_eqb p) (players (current (insert_players c ps))) = true) /\
  rows_distinct (players (current (insert_players c ps))).
Proof.
  intros c ps Hd. unfold insert_players, set_current. cbn [current players].
  destruct (players_fold ps (players (current c))) as (Hpre & Hin & Hdist).
  split; [exact Hpre|]. split; [exact Hin | exact (Hdist Hd)].
Qed.

Lemma insert_players_no_duplicates_witness :
  rows_distinct (players (current empty_conn)) /\
  rows_distinct (players (current (insert_players empty_conn
     [(PStr "A", "MI"); (PStr "A", "MI"); (PStr "B", "CSK")]))).
Proof.
  assert (H : rows_distinct (players (current empty_conn))).
  { intros i j p q _ Hi. destruct i; discriminate Hi. }
  split; [exact H|].
  exact (proj2 (proj2 (insert_players_no_duplicates empty_conn _ H))).
Defined.

Lemma match_header_spec : forall y sf md,
  extract_match_data y sf = Some md ->
  exists info dates teams n,
    dict_get y "info" (PDict []) = Some info /\
    dict_get info "dates" (PList []) = Some dates /\
    (if truthy dates then py_index dates 0 else Some PNone) = Some (match_date md) /\
    (if truthy (match_date md) then
       match match_date md with
       | PStr s => option_map PInt (py_int (hd "" (split_on "-" s)))
       | PDate yr _ _ => Some (PInt yr)
       | _ => Some PNone
       end
     else Some PNone) = Some (season md) /\
    dict_get info "teams" (PList []) = Some teams /\
    py_len teams = Some n /\
    (if (0 <? n)%nat then py_index teams 0 else Some PNone) = Some (team1 md) /\
    (if (1 <? n)%nat then py_index teams 1 else Some PNone) = Some (team2 md).
Proof.
  intros y sf md H. unfold extract_match_data in H. unbind H.
  injection H as <-. cbn [match_date season team1 team2].
  do 4 eexists. repeat split; eassumption.
Qed.

Lemma single_digit_year : forall ch d,
  digit_val ch = Some d -> py_int (hd "" (split_on "-" (String ch EmptyString))) = Some d.
Proof.
  intros [[] [] [] [] [] [] [] []] d H; cbn in H;
    first [discriminate H | injection H as <-; reflexivity].
Qed.

(** The season comes from the match date: the year of a date value, the
    integer before the first "-" of a date string, and [None] when there
    is no date; the match date is the first entry of [info.dates], or
    [None] when that is empty or missing. *)
Theorem season_from_first_date : forall y sf md,
  extract_match_data y sf = Some md ->
  (forall yr m d, match_date md = PDate yr m d -> season md = PInt yr) /\
  (forall s, match_date md = PStr s -> s <> ""%string ->
     exists z, py_int (hd "" (split_on "-" s)) = Some z /\ season md = PInt z) /\
  (truthy (match_date md) = false -> season md = PNone) /\
  (forall info dates, dict_get y "info" (PDict []) = Some info ->
     dict_get info "dates" (PList []) = Some dates ->
     if truthy dates then py_index dates 0 = Some (match_date md)
     else match_date md = PNone).
Proof.
  intros y sf md H.
  destruct (match_header_spec _ _ _ H)
    as (info & dates & teams & n & Hi & Hd & Hdate & Hseason & _).
  split; [|split; [|split]].
  - intros yr m d Hm. rewrite Hm in Hseason. cbn in Hseason.
    injection Hseason as <-. reflexivity.
  - intros s Hm Hs. rewrite Hm in Hseason. cbn [truthy] in Hseason.
    destruct (String.eqb s "") eqn:Es; [apply String.eqb_eq in Es; contradiction|].
    cbn [negb] in Hseason.
    destruct (py_int (hd "" (split_on "-" s))) as [z|]; cbn in Hseason; [|discriminate Hseason].
    exists z. split; [reflexivity|]. injection Hseason as <-. reflexivity.
  - intros Hf. rewrite Hf in Hseason. injection Hseason as <-. reflexivity.
  - intros info' dates' Hi' Hd'. rewrite Hi in Hi'. injection Hi' as <-.
    rewrite Hd in Hd'. injection Hd' as <-.
    destruct (truthy dates); [exact Hdate|]. injection Hdate as <-. reflexivity.
Qed.

Lemma season_from_first_date_witness :
  exists md, extract_match_data sample_yaml "m1.yaml" = Some md /\ season md = PInt 2025.
Proof.
  eexists. split; [reflexivity|].
  apply (proj1 (season_from_first_date sample_yaml "m1.yaml" _ eq_refl) 2025 3 22).
  reflexivity.
Defined.

(** [team1] and [team2] are the first two entries of [info.teams] in
    listing order, [None] where the list is shorter. *)
Theorem teams_in_listing_order : forall y sf md info ts,
  extract_match_data y sf = Some md ->
  dict_get y "info" (PDict []) = Some info ->
  dict_get info "teams" (PList []) = Some (PList ts) ->
  team1 md = nth 0 ts PNone /\ team2 md = nth 1 ts PNone.
Proof.
  intros y sf md info ts H Hi' Ht'.
  destruct (match_header_spec _ _ _ H)
    as (info0 & dates & teams & n & Hi & _ & _ & _ & Ht & Hn & H1 & H2).
  rewrite Hi in Hi'. injection Hi' as <-.
  rewrite Ht in Ht'. injection Ht' as ->.
  cbn in Hn. injection Hn as <-.
  destruct ts as [|a [|b ts]]; cbn in H1, H2 |- *;
    injection H1 as <-; injection H2 as <-; split; reflexivity.
Qed.

Lemma teams_in_listing_order_witness :
  exists md, extract_match_data sample_yaml "m1.yaml" = Some md /\
  team1 md = PStr "MI" /\ team2 md = PStr "CSK".
Proof.
  eexists. split; [reflexivity|].
  exact (teams_in_listing_order sample_yaml "m1.yaml" _
           (PDict [("teams", PList [PStr "MI"; PStr "CSK"]);
                   ("dates", PList [PDate 2025 3 22]);
                   ("players", PDict [("MI", PList [PStr "A"]); ("CSK", PList [PStr "B"])])])
           [PStr "MI"; PStr "CSK"] eq_refl eq_refl eq_refl).
Defined.

(** When [info.dates] is a single string rather than a list, [dates[0]]
    is its first character: the match date is that one character, and a
    digit there becomes the season. *)
Theorem string_dates_first_character : forall y sf md info ch rest,
  dict_get y "info" (PDict []) = Some info ->
  dict_get info "dates" (PList []) = Some (PStr (String ch rest)) ->
  extract_match_data y sf = Some md ->
  match_date md = PStr (String ch EmptyString) /\
  (forall d, digit_val ch = Some d -> season md = PInt d).
Proof.
  intros y sf md info ch rest Hi' Hd' H.
  destruct (match_header_spec _ _ _ H)
    as (info0 & dates & teams & n & Hi & Hd & Hdate & Hseason & _).
  rewrite Hi in Hi'. injection Hi' as <-.
  rewrite Hd in Hd'. injection Hd' as ->.
  cbn in Hdate. injection Hdate as Hdate.
  split; [symmetry; exact Hdate|].
  intros d Hdig. rewrite <- Hdate in Hseason. cbn [truthy] in Hseason.
  cbn [String.eqb negb] in Hseason.
  rewrite (single_digit_year ch d Hdig) in Hseason. cbn in Hseason.
  injection Hseason as <-. reflexivity.
Qed.

Lemma string_dates_first_character_witness :
  exists md, extract_match_data string_dates_yaml "s.yaml" = Some md /\
  match_date md = PStr "2" /\ season md = PInt 2.
Proof.
  eexists. split; [reflexivity|].
  destruct (string_dates_first_character string_dates_yaml "s.yaml" _
              (PDict [("dates", PStr "2025-03-22")]) "2"%char "025-03-22"
              eq_refl eq_refl eq_refl) as [Hm Hs].
  split; [exact Hm | apply Hs; reflexivity].
Defined.

(** A first date string that does not start with an integer before its
    first "-" (such as "22/03/2025") makes [int()] raise: the file is
    reported as an error and nothing is written. *)
Theorem date_without_year_raises : forall c f y info s rest,
  dict_get y "info" (PDict []) = Some info ->
  dict_get info "dates" (PList []) = Some (PList (PStr s :: rest)) ->
  s <> ""%string ->
  py_int (hd "" (split_on "-" s)) = None ->
  process_yaml_file c f (FLoaded y) = (Raised, c).
Proof.
  intros c f y info s rest Hi Hd Hs Hp.
  assert (Hy : truthy y = true).
  { destruct y as [| | | | | |l]; try discriminate Hi.
    destruct l as [|kv l]; [|reflexivity].
    cbn in Hi. injection Hi as <-. discriminate Hd. }
  assert (Hmd : extract_match_data y f = None).
  { unfold extract_match_data. rewrite Hi. cbn [obind]. rewrite Hd.
    cbn [obind truthy py_index nth_error].
    destruct (String.eqb s "") eqn:Es; [apply String.eqb_eq in Es; contradiction|].
    cbn [negb obind]. rewrite Hp. reflexivity. }
  unfold process_yaml_file. rewrite Hy. cbn [negb]. rewrite Hmd. reflexivity.
Qed.

Lemma date_without_year_raises_witness :
  process_yaml_file empty_conn "d.yaml" (FLoaded slash_date_yaml) = (Raised, empty_conn).
Proof.
  apply (date_without_year_raises empty_conn "d.yaml" slash_date_yaml
           (PDict [("dates", PList [PStr "22/03/2025"])]) "22/03/2025" []);
    [reflexivity | reflexivity | discriminate | reflexivity].
Defined.

Lemma match_exists_false : forall d sf,
  match_exists d sf = false -> ~ In sf (map (fun r => source_file (snd r)) (matches d)).
Proof.
  intros d sf H Hin. apply in_map_iff in Hin as (r & Hr & Hin).
  assert (Ht : match_exists d sf = true).
  { unfold match_exists. apply existsb_exists. exists r. split; [exact Hin|].
    rewrite Hr. apply String.eqb_refl. }
  congruence.
Qed.

Lemma main_step_nodup : forall c n f,
  committed c = current c ->
  NoDup (map (fun r => source_file (snd r)) (matches (committed c))) ->
  NoDup (map (fun r => source_file (snd r)) (matches (committed (fst (main_step (c, n) f))))).
Proof.
  intros c n [fname fc] Hcl Hnd. unfold main_step. cbn [fst snd].
  pose proof (process_shape c fname fc) as (Hc & Hn & _).
  destruct (process_yaml_file c fname fc) as [o c1] eqn:E. cbn [fst snd] in *.
  destruct o; cbn [fst].
  - destruct fc as [| |y]; [discriminate E | discriminate E |].
    destruct (process_ingested _ _ _ _ E)
      as (md & ps & rs & ds & _ & Ex & _ & _ & _ & _ & Hm & _).
    unfold commit. cbn [committed]. rewrite Hm, map_app. cbn [map snd].
    rewrite <- Hcl. apply NoDup_app; [exact Hnd | constructor; [intros [] | constructor] |].
    intros a Ha [<- | []]. apply (match_exists_false (current c) (source_file md) Ex).
    rewrite <- Hcl. exact Ha.
  - rewrite (Hn eq_refl). exact Hnd.
  - unfold rollback. cbn [committed]. rewrite Hc. exact Hnd.
Qed.

Lemma fold_main_nodup : forall files c n,
  committed c = current c ->
  NoDup (map (fun r => source_file (snd r)) (matches (committed c))) ->
  NoDup (map (fun r => source_file (snd r))
             (matches (committed (fst (fold_left main_step files (c, n)))))).
Proof.
  induction files as [|f fs IH]; intros c n Hcl Hnd; cbn [fold_left]; [exact Hnd|].
  pose proof (main_step_clean c n f Hcl) as (Hcl2 & _).
  pose proof (main_step_nodup c n f Hcl Hnd) as Hnd2.
  destruct (main_step (c, n) f) as [c2 n2]. cbn [fst] in *.
  exact (IH c2 n2 Hcl2 Hnd2).
Qed.

(** The committed [matches] table never holds two rows for the same
    source file, even when a run lists the same file twice. *)
Theorem committed_source_files_distinct : forall c files,
  committed c = current c ->
  NoDup (map (fun r => source_file (snd r)) (matches (committed c))) ->
  NoDup (map (fun r => source_file (snd r)) (matches (committed (fst (ingest_files c files))))).
Proof.
  intros c files Hcl Hnd. unfold ingest_files. exact (fold_main_nodup files c counts0 Hcl Hnd).
Qed.

Lemma committed_source_files_distinct_witness :
  committed empty_conn = current empty_conn /\
  NoDup (map (fun r => source_file (snd r)) (matches (committed empty_conn))) /\
  NoDup (map (fun r => source_file (snd r))
             (matches (committed (fst (ingest_files empty_conn sample_files))))).
Proof.
  assert (H1 : committed empty_conn = current empty_conn) by reflexivity.
  assert (H2 : NoDup (map (fun r : Z * match_rec => source_file (snd r))
                          (matches (committed empty_conn)))) by constructor.
  split; [exact H1|]. split; [exact H2|].
  exact (committed_source_files_distinct empty_conn sample_files H1 H2).
Defined.

Lemma players_fold_opt : forall (items : list (string * pyval)) (acc res : list (pyval * string)),
  fold_opt (fun acc '(team, player_list) =>
              let* names := py_iter player_list in
              Some (acc ++ map (fun p => (p, team)) names)%list) items acc = Some res ->
  forall name team, In (name, team) res <->
    In (name, team) acc \/
    exists pl names, In (team, pl) items /\ py_iter pl = Some names /\ In name names.
Proof.
  induction items as [|[t pl] items IH]; intros acc res H name team.
  - injection H as <-. split; [intros Hin; left; exact Hin|].
    intros [Hin | (pl & names & [] & _)]. exact Hin.
  - cbn [fold_opt] in H.
    destruct (py_iter pl) as [names|] eqn:E; cbn [obind] in H; [|discriminate H].
    rewrite (IH _ _ H name team), in_app_iff, in_map_iff.
    split.
    + intros [[Hin | (x & Hx & Hin)] | (pl' & names' & Hin & Hit & Hn)].
      * left. exact Hin.
      * injection Hx as -> ->. right. exists pl, names. split; [left; reflexivity|].
        split; assumption.
      * right. exists pl', names'. split; [right; exact Hin|]. split; assumption.
    + intros [Hin | (pl' & names' & [Heq | Hin] & Hit & Hn)].
      * left. left. exact Hin.
      * injection Heq as -> ->. rewrite E in Hit. injection Hit as <-.
        left. right. exists name. split; [reflexivity | exact Hn].
      * right. exists pl', names'. split; [exact Hin|]. split; assumption.
Qed.

(** The player rows of a file are exactly the (name, team) pairs of the
    rosters in [info.players]: every listed name with the team it is
    listed under, and nothing else. *)
Theorem players_from_rosters : forall y ps info items,
  extract_players y = Some ps ->
  dict_get y "info" (PDict []) = Some info ->
  dict_get info "players" (PDict []) = Some (PDict items) ->
  forall name team, In (name, team) ps <->
    exists pl names, In (team, pl) items /\ py_iter pl = Some names /\ In name names.
Proof.
  intros y ps info items H Hi Hp name team.
  unfold extract_players in H. rewrite Hi in H. cbn [obind] in H. rewrite Hp in H.
  cbn [obind] in H.
  rewrite (players_fold_opt _ _ _ H name team).
  split; [intros [[] | Hex]; exact Hex | intros Hex; right; exact Hex].
Qed.

Lemma players_from_rosters_witness :
  exists ps, extract_players sample_yaml = Some ps /\ In (PStr "B", "CSK") ps.
Proof.
  eexists. split; [reflexivity|].
  apply (players_from_rosters sample_yaml _
           (PDict [("teams", PList [PStr "MI"; PStr "CSK"]);
                   ("dates", PList [PDate 2025 3 22]);
                   ("players", PDict [("MI", PList [PStr "A"]); ("CSK", PList [PStr "B"])])])
           [("MI", PList [PStr "A"]); ("CSK", PList [PStr "B"])] eq_refl eq_refl eq_refl).
  exists (PList [PStr "B"]), [PStr "B"].
  split; [right; left; reflexivity|]. split; [reflexivity | left; reflexivity].
Defined.

Lemma match_outcome_spec : forall y sf md,
  extract_match_data y sf = Some md ->
  exists info outcome win_by wr ww pom,
    dict_get y "info" (PDict []) = Some info /\
    dict_get info "outcome" (PDict []) = Some outcome /\
    dict_get outcome "winner" PNone = Some (winner md) /\
    dict_get outcome "by" (PDict []) = Some win_by /\
    dict_get win_by "runs" (PInt 0) = Some wr /\ win_by_runs md = py_or wr (PInt 0) /\
    dict_get win_by "wickets" (PInt 0) = Some ww /\ win_by_wickets md = py_or ww (PInt 0) /\
    (if dict_has outcome "result" then dict_get outcome "result" PNone
     else if negb (truthy (winner md)) then Some (PStr "no result")
     else Some (PStr "normal")) = Some (result_type md) /\
    dict_get info "player_of_match" (PList []) = Some pom /\
    (if truthy pom then py_index pom 0 else Some PNone) = Some (player_of_match md).
Proof.
  intros y sf md H. unfold extract_match_data in H. unbind H.
  injection H as <-. cbn [winner win_by_runs win_by_wickets result_type player_of_match].
  do 6 eexists. repeat split; eassumption.
Qed.

Lemma py_or_zero : forall v, truthy (py_or v (PInt 0)) = true \/ py_or v (PInt 0) = PInt 0.
Proof. intros v. unfold py_or. destruct (truthy v) eqn:E; [left; exact E | right; reflexivity]. Qed.

(** The result type is the outcome's own [result] when it has one,
    otherwise "normal" when there is a winner and "no result" when there
    is none; a missing or null win margin is stored as 0. *)
Theorem result_type_and_margins : forall y sf md info outcome,
  extract_match_data y sf = Some md ->
  dict_get y "info" (PDict []) = Some info ->
  dict_get info "outcome" (PDict []) = Some outcome ->
  (dict_has outcome "result" = true -> dict_get outcome "result" PNone = Some (result_type md)) /\
  (dict_has outcome "result" = false -> truthy (winner md) = false ->
     result_type md = PStr "no result") /\
  (dict_has outcome "result" = false -> truthy (winner md) = true ->
     result_type md = PStr "normal") /\
  dict_get outcome "winner" PNone = Some (winner md) /\
  (truthy (win_by_runs md) = true \/ win_by_runs md = PInt 0) /\
  (truthy (win_by_wickets md) = true \/ win_by_wickets md = PInt 0).
Proof.
  intros y sf md info outcome H Hi' Ho'.
  destruct (match_outcome_spec _ _ _ H)
    as (info0 & outcome0 & win_by & wr & ww & pom & Hi & Ho & Hw & _ & _ & Hr & _ & Hk & Ht & _).
  rewrite Hi in Hi'. injection Hi' as <-. rewrite Ho in Ho'. injection Ho' as <-.
  split; [|split; [|split; [|split; [|split]]]].
  - intros Hres. rewrite Hres in Ht. exact Ht.
  - intros Hres Hwin. rewrite Hres, Hwin in Ht. injection Ht as <-. reflexivity.
  - intros Hres Hwin. rewrite Hres, Hwin in Ht. injection Ht as <-. reflexivity.
  - exact Hw.
  - rewrite Hr. apply py_or_zero.
  - rewrite Hk. apply py_or_zero.
Qed.

Lemma result_type_and_margins_witness :
  exists md, extract_match_data sample_yaml "m1.yaml" = Some md /\
  result_type md = PStr "no result" /\ win_by_runs md = PInt 0.
Proof.
  eexists. split; [reflexivity|].
  destruct (result_type_and_margins sample_yaml "m1.yaml" _
              (PDict [("teams", PList [PStr "MI"; PStr "CSK"]);
                      ("dates", PList [PDate 2025 3 22]);
                      ("players", PDict [("MI", PList [PStr "A"]); ("CSK", PList [PStr "B"])])])
              (PDict []) eq_refl eq_refl eq_refl)
    as (_ & Hnr & _ & _ & Hruns & _).
  split; [apply Hnr; reflexivity|].
  destruct Hruns as [Hf | Hz]; [discriminate Hf | exact Hz].
Defined.

(** [player_of_match] is the first entry of [info.player_of_match]:
    [None] when that is missing or empty, the first name of a list, and
    the first character when it is a single string. *)
Theorem player_of_match_first_entry : forall y sf md info pom,
  extract_match_data y sf = Some md ->
  dict_get y "info" (PDict []) = Some info ->
  dict_get info "player_of_match" (PList []) = Some pom ->
  (truthy pom = false -> player_of_match md = PNone) /\
  (forall p rest, pom = PList (p :: rest) -> player_of_match md = p) /\
  (forall ch rest, pom = PStr (String ch rest) ->
     player_of_match md = PStr (String ch EmptyString)).
Proof.
  intros y sf md info pom H Hi' Hp'.
  destruct (match_outcome_spec _ _ _ H)
    as (info0 & outcome & win_by & wr & ww & pom0 & Hi & _ & _ & _ & _ & _ & _ & _ & _ & Hp & Hpm).
  rewrite Hi in Hi'. injection Hi' as <-. rewrite Hp in Hp'. injection Hp' as ->.
  split; [|split].
  - intros Hf. rewrite Hf in Hpm. injection Hpm as <-. reflexivity.
  - intros p rest ->. cbn in Hpm. injection Hpm as <-. reflexivity.
  - intros ch rest ->. cbn in Hpm. injection Hpm as <-. reflexivity.
Qed.

Lemma player_of_match_first_entry_witness :
  exists md, extract_match_data string_pom_yaml "p.yaml" = Some md /\
  player_of_match md = PStr "V".
Proof.
  eexists. split; [reflexivity|].
  exact (proj2 (proj2 (player_of_match_first_entry string_pom_yaml "p.yaml" _
           (PDict [("player_of_match", PStr "V Kohli")]) (PStr "V Kohli")
           eq_refl eq_refl eq_refl)) "V"%char " Kohli" eq_refl).
Defined.

Lemma extraction_linked : forall y mid teams rs ds,
  extract_innings_and_deliveries y mid teams = Some (rs, ds) ->
  Forall (fun r => inn_match_id r = mid) rs /\
  Forall (fun x => exists r, In r rs /\ inn_match_id r = match_id x /\
                             inn_innings_number r = innings_number x) ds.
Proof.
  intros y mid teams rs ds H. unfold extract_innings_and_deliveries in H. unbind H.
  destruct (innings_loop_structure _ _ _ _ _ _ H) as (_ & Hr & Hd).
  split; [exact Hr|].
  eapply Forall_impl; [|exact Hd]. cbn beta.
  intros x (r & Hin & Hm & Hn & _).
  rewrite Forall_forall in Hr. exists r. split; [exact Hin|].
  split; [rewrite Hr by exact Hin; symmetry; exact Hm | symmetry; exact Hn].
Qed.

Lemma main_step_linked : forall c n f,
  committed c = current c -> linked_db (committed c) ->
  linked_db (committed (fst (main_step (c, n) f))).
Proof.
  intros c n [fname fc] Hcl [Hi Hd]. unfold main_step. cbn [fst snd].
  pose proof (process_shape c fname fc) as (Hc & Hn & _).
  destruct (process_yaml_file c fname fc) as [o c1] eqn:E. cbn [fst snd] in *.
  destruct o; cbn [fst].
  - destruct fc as [| |y]; [discriminate E | discriminate E |].
    destruct (process_ingested _ _ _ _ E)
      as (md & ps & rs & ds & _ & _ & _ & Eid & _ & _ & Hm & _ & Hin & Hb).
    destruct (extraction_linked _ _ _ _ _ Eid) as [Hrs Hds].
    rewrite Hcl in Hi, Hd.
    unfold commit. cbn [committed]. split.
    + rewrite Hin, Hm. apply Forall_app. split.
      * eapply Forall_impl; [|exact Hi]. cbn beta. intros r Hr.
        rewrite map_app, in_app_iff. left. exact Hr.
      * eapply Forall_impl; [|exact Hrs]. cbn beta. intros r ->.
        rewrite map_app, in_app_iff. right. left. reflexivity.
    + rewrite Hb, Hin. apply Forall_app. split.
      * eapply Forall_impl; [|exact Hd]. cbn beta. intros x (r & Hr & Hm1 & Hn1).
        exists r. rewrite in_app_iff. split; [left; exact Hr|]. split; assumption.
      * eapply Forall_impl; [|exact Hds]. cbn beta. intros x (r & Hr & Hm1 & Hn1).
        exists r. rewrite in_app_iff. split; [right; exact Hr|]. split; assumption.
  - rewrite (Hn eq_refl). split; assumption.
  - unfold rollback. cbn [committed]. rewrite Hc. split; assumption.
Qed.

Lemma fold_main_linked : forall files c n,
  committed c = current c -> linked_db (committed c) ->
  linked_db (committed (fst (fold_left main_step files (c, n)))).
Proof.
  induction files as [|f fs IH]; intros c n Hcl Hl; cbn [fold_left]; [exact Hl|].
  pose proof (main_step_clean c n f Hcl) as (Hcl2 & _).
  pose proof (main_step_linked c n f Hcl Hl) as Hl2.
  destruct (main_step (c, n) f) as [c2 n2]. cbn [fst] in *.
  exact (IH c2 n2 Hcl2 Hl2).
Qed.

(** Committed rows stay linked across a run: every innings row belongs to
    a committed match row and every delivery row to an innings row of the
    same match and innings number; a file that fails midway leaves no
    orphan rows, since its transaction is rolled back. *)
Theorem committed_rows_linked : forall c files,
  committed c = current c -> linked_db (committed c) ->
  linked_db (committed (fst (ingest_files c files))).
Proof.
  intros c files Hcl Hl. unfold ingest_files. exact (fold_main_linked files c counts0 Hcl Hl).
Qed.

Lemma committed_rows_linked_witness :
  committed empty_conn = current empty_conn /\ linked_db (committed empty_conn) /\
  linked_db (committed (fst (ingest_files empty_conn sample_files))).
Proof.
  assert (H1 : committed empty_conn = current empty_conn) by reflexivity.
  assert (H2 : linked_db (committed empty_conn)) by (split; constructor).
  split; [exact H1|]. split; [exact H2|].
  exact (committed_rows_linked empty_conn sample_files H1 H2).
Defined.
